(** * virtual_critical_load: the Enphase session manager and the inventory reducer

    A shallow embedding of [virtual_critical_load/__main__.py] and
    [virtual_critical_load/enphase/enphase.py], and the properties of the
    specification checked against it.

    - A value decoded by [json.loads] is a [json]; a Python [dict] is an
      association list in insertion order, its keys distinct.
    - A Python exception is a constructor of [exn]; code that may raise
      returns a [result].
    - Code that touches the file [enphase.config], the network, the clock or
      the console runs in the monad [M] over a [Machine]: the [Enphase] object
      together with the outside world, which records every effect in a trace.
    - The libraries are modelled by what the program observes of them:
      [json.loads] inverts [json.dumps]; [requests] answers each request from
      an oracle that sees the history; [datetime] reads naive local times
      off the platform's [localtime]; [schedule] runs the due job and lets
      its exceptions through; [int] reads ASCII decimal strings; [a / b] on
      two ints is the correctly rounded double. *)

From Stdlib Require Import ZArith QArith Qabs List String Ascii Bool Lia.
From Stdlib Require Import Floats.SpecFloat.
Import ListNotations.

Local Open Scope string_scope.
Local Open Scope list_scope.
Local Open Scope Z_scope.

Set Warnings "-register-all".

(** ** Python values and exceptions *)

Inductive exn : Type :=
| StopIteration
| ZeroDivisionError
| OverflowError
| OSError
| TypeError
| ValueError
| AttributeError
| KeyError
| IndexError
| FileNotFoundError
| JSONDecodeError
| RequestException
| Exception (msg : string).

Inductive result (A : Type) : Type :=
| Ok (a : A)
| Raise (e : exn).
Arguments Ok {A} a.
Arguments Raise {A} e.

Definition rbind {A B} (r : result A) (k : A -> result B) : result B :=
  match r with
  | Ok a => k a
  | Raise e => Raise e
  end.

Declare Scope result_scope.
Delimit Scope result_scope with result.
Notation "'let?' x ':=' r 'in' k" := (rbind r (fun x => k))
  (at level 10, x name, r at level 100, k at level 200) : result_scope.
Local Open Scope result_scope.

(** What [json.loads] returns.  A float is kept as its IEEE 754 datum. *)
Inductive json : Type :=
| JNull
| JBool (b : bool)
| JInt (n : Z)
| JFloat (f : spec_float)
| JString (s : string)
| JArray (items : list json)
| JObject (kvs : list (string * json)).

(** [d.get(k)] on a dict: the value, or [None] when the key is absent. *)
Fixpoint dict_get (kvs : list (string * json)) (k : string) : json :=
  match kvs with
  | [] => JNull
  | (k', v) :: rest => if String.eqb k' k then v else dict_get rest k
  end.

Definition dict_has (kvs : list (string * json)) (k : string) : bool :=
  existsb (fun kv => String.eqb (fst kv) k) kvs.

(** [x.get(k)]: only a dict has the method. *)
Definition py_get (x : json) (k : string) : result json :=
  match x with
  | JObject kvs => Ok (dict_get kvs k)
  | _ => Raise AttributeError
  end.

(** [x == s] for a string literal [s]. *)
Definition py_eq_str (x : json) (s : string) : bool :=
  match x with
  | JString t => String.eqb t s
  | _ => false
  end.

(** Truth value of [x] in an [if] or under [not]/[and]. *)
Definition py_truthy (x : json) : bool :=
  match x with
  | JNull => false
  | JBool b => b
  | JInt n => negb (n =? 0)
  | JFloat (S754_zero _) => false
  | JFloat _ => true
  | JString s => negb (String.eqb s "")
  | JArray items => match items with [] => false | _ => true end
  | JObject kvs => match kvs with [] => false | _ => true end
  end.

(** [x[0]]. A dict decoded from JSON has only string keys. *)
Definition py_getitem0 (x : json) : result json :=
  match x with
  | JArray (d :: _) => Ok d
  | JArray [] => Raise IndexError
  | JString (String c _) => Ok (JString (String c EmptyString))
  | JString EmptyString => Raise IndexError
  | JObject _ => Raise KeyError
  | _ => Raise TypeError
  end.

Fixpoint chars_of (s : string) : list json :=
  match s with
  | EmptyString => []
  | String c s' => JString (String c EmptyString) :: chars_of s'
  end.

(** The elements [for v in x] goes through: a dict yields its keys. *)
Definition py_iter (x : json) : result (list json) :=
  match x with
  | JArray items => Ok items
  | JObject kvs => Ok (map (fun kv => JString (fst kv)) kvs)
  | JString s => Ok (chars_of s)
  | _ => Raise TypeError
  end.

(** *** [int(x)] *)

Definition is_space (c : ascii) : bool :=
  let n := nat_of_ascii c in
  ((9 <=? n) && (n <=? 13) || (28 <=? n) && (n <=? 32))%nat.

Definition is_digit (c : ascii) : bool :=
  let n := nat_of_ascii c in ((48 <=? n) && (n <=? 57))%nat.

Definition digit_val (c : ascii) : Z := Z.of_nat (nat_of_ascii c) - 48.

Fixpoint lstrip (cs : list ascii) : list ascii :=
  match cs with
  | c :: cs' => if is_space c then lstrip cs' else cs
  | [] => []
  end.

Definition strip (cs : list ascii) : list ascii :=
  rev (lstrip (rev (lstrip cs))).

(** Decimal digits, a single underscore allowed between two digits. *)
Fixpoint digits_val (acc : Z) (after_digit : bool) (cs : list ascii) : option Z :=
  match cs with
  | [] => if after_digit then Some acc else None
  | c :: cs' =>
      if is_digit c then digits_val (10 * acc + digit_val c) true cs'
      else if Ascii.eqb c "_"%char && after_digit then digits_val acc false cs'
      else None
  end.

(** [int(s)] for a [str] of ASCII characters, base ten. *)
Definition int_of_str (s : string) : result Z :=
  let body := strip (list_ascii_of_string s) in
  let parsed :=
    match body with
    | "-"%char :: ds => option_map Z.opp (digits_val 0 false ds)
    | "+"%char :: ds => digits_val 0 false ds
    | ds => digits_val 0 false ds
    end in
  match parsed with
  | Some n => Ok n
  | None => Raise ValueError
  end.

(** [int(f)] for a float: truncation towards zero. *)
Definition int_of_float (f : spec_float) : result Z :=
  match f with
  | S754_zero _ => Ok 0
  | S754_infinity _ => Raise OverflowError
  | S754_nan => Raise ValueError
  | S754_finite s m e =>
      let mag := if 0 <=? e then Z.pos m * 2 ^ e else Z.pos m / 2 ^ (- e) in
      Ok (if s then - mag else mag)
  end.

Definition py_int (x : json) : result Z :=
  match x with
  | JNull => Raise TypeError
  | JBool b => Ok (if b then 1 else 0)
  | JInt n => Ok n
  | JFloat f => int_of_float f
  | JString s => int_of_str s
  | JArray _ => Raise TypeError
  | JObject _ => Raise TypeError
  end.

(** *** [a / b] on two ints

    The float Python returns is the double nearest to the exact quotient,
    ties to even: the IEEE 754 division of binary64 ([prec] 53, [emax] 1024)
    applied to the two integers taken as exact data.  A quotient that rounds
    beyond the largest double, one of magnitude 2^1024 - 2^970 or more,
    raises [OverflowError]. *)

Definition float_overflow_bound : Q := inject_Z (2 ^ 1024 - 2 ^ 970).

(** An int as a binary datum, the mantissa not rounded. *)
Definition float_of_int (a : Z) : spec_float :=
  match a with
  | Z0 => S754_zero false
  | Zpos p => S754_finite false p 0
  | Zneg p => S754_finite true p 0
  end.

Definition py_truediv (a b : Z) : result spec_float :=
  if b =? 0 then Raise ZeroDivisionError
  else
    let q := if 0 <? b then a # Z.to_pos b else (- a) # Z.to_pos (- b) in
    if Qle_bool float_overflow_bound (Qabs q) then Raise OverflowError
    else Ok (SFdiv 53 1024 (float_of_int a) (float_of_int b)).

Fixpoint result_map {A B} (f : A -> result B) (l : list A) : result (list B) :=
  match l with
  | [] => Ok []
  | a :: l' =>
      let? b := f a in
      let? bs := result_map f l' in
      Ok (b :: bs)
  end.

(** ** [__main__.py]: the inventory reducer *)

Inductive grid : Type := UP | DOWN.

Record summary : Type := {
  grid_status : grid;
  battery_levels : list Z;
  battery_level : spec_float
}.

(** [next(item for item in data if item.get('type') == ty)] *)
Fixpoint next_of_type (ty : string) (items : list json) : result json :=
  match items with
  | [] => Raise StopIteration
  | item :: rest =>
      let? t := py_get item "type" in
      if py_eq_str t ty then Ok item else next_of_type ty rest
  end.

(** Lines 12-14: the grid status read off the ENPOWER entry. *)
Definition grid_status_of (items : list json) : result grid :=
  let? enpower := next_of_type "ENPOWER" items in
  let? devices := py_get enpower "devices" in
  let? device := py_getitem0 devices in
  let? state := py_get device "mains_oper_state" in
  Ok (if py_eq_str state "closed" then UP else DOWN).

Definition device_level (device : json) : result Z :=
  let? pf := py_get device "percentFull" in
  py_int pf.

(** Lines 16-18: the battery levels read off the ENCHARGE entry. *)
Definition battery_levels_of (items : list json) : result (list Z) :=
  let? encharge := next_of_type "ENCHARGE" items in
  let? devices := py_get encharge "devices" in
  let? devs := py_iter devices in
  result_map device_level devs.

Definition py_sum (l : list Z) : Z := fold_left Z.add l 0.

Definition process_ensemble_inventory (data : json) : result summary :=
  let? items := py_iter data in
  let? gs := grid_status_of items in
  let? items' := py_iter data in
  let? levels := battery_levels_of items' in
  let? avg := py_truediv (py_sum levels) (Z.of_nat (List.length levels)) in
  Ok {| grid_status := gs; battery_levels := levels; battery_level := avg |}.

Definition entry (ty : string) (devices : list json) : json :=
  JObject [("type", JString ty); ("devices", JArray devices)].

Definition sample_inventory : json :=
  JArray [ entry "ENPOWER" [JObject [("mains_oper_state", JString "closed")]];
           entry "ENCHARGE" [JObject [("percentFull", JString "80")];
                             JObject [("percentFull", JString "60")]] ].

(** ** [enphase.py]: tokens and configuration *)

(** The dataclasses declare their fields [str] but nothing enforces it: a
    field holds whatever the decoded JSON held. *)
Record EnphaseToken : Type := {
  token : json;
  generation_time : json;
  expires_at : json
}.

Record EnphaseConfig : Type := {
  username : json;
  password : json;
  serial : json;
  envoy : json;
  site_id : json
}.

(** [datetime]: a naive local time is what calendar and clock show, without
    a zone; it is kept as the microseconds from 1970-01-01 00:00:00 to that
    reading.  Two naive times are compared, and subtracted, as readings.

    Which reading belongs to a POSIX timestamp is the platform's business:
    its [localtime], with the zone rules behind it, gives the reading in
    seconds, or fails where it cannot express the year.  (The platform counts
    POSIX time: a minute has sixty seconds.) *)
Module datetime.
Definition t : Type := Z.
Definition zone : Type := Z -> option Z.

(** The readings 0001-01-01 00:00:00 and 9999-12-31 23:59:59. *)
Definition min_timestamp : Z := -62135596800.
Definition max_timestamp : Z := 253402300799.

Definition max_fold_seconds : Z := 86400.

(** The reading at the timestamp [u], in seconds: [OSError] where the
    platform fails, [ValueError] for a year outside 1..9999. *)
Definition local (lt : zone) (u : Z) : result Z :=
  match lt u with
  | None => Raise OSError
  | Some seconds =>
      if (seconds <? min_timestamp) || (max_timestamp <? seconds)
      then Raise ValueError
      else Ok seconds
  end.

(** [datetime.fromtimestamp(n)] for an int [n].  Outside the platform's
    [time_t] the call raises [OverflowError].  To tell whether the reading
    repeats after the clocks were set back, the reading of a day earlier is
    taken as well, and that of the moment the clocks were set back if they
    were; each can fail as the first.  The naive time returned is the
    reading of [n]; comparisons do not look at [fold]. *)
Definition fromtimestamp (lt : zone) (n : Z) : result t :=
  if (n <? - 2 ^ 63) || (2 ^ 63 <=? n) then Raise OverflowError
  else
    let? result_seconds := local lt n in
    let? probe_seconds := local lt (n - max_fold_seconds) in
    let transition := result_seconds - probe_seconds - max_fold_seconds in
    let? _ := if transition <? 0 then local lt (n + transition) else Ok 0 in
    Ok (result_seconds * 1000000).
End datetime.

(** [try: ... except (TypeError, ValueError): raise Exception(msg)];
    [JSONDecodeError] is a [ValueError]. *)
Definition except_type_value {A} (r : result A) (msg : string) : result A :=
  match r with
  | Raise TypeError => Raise (Exception msg)
  | Raise ValueError => Raise (Exception msg)
  | Raise JSONDecodeError => Raise (Exception msg)
  | _ => r
  end.

(** The properties [start] and [end], in the local zone [lt]. *)
Definition start (lt : datetime.zone) (tk : EnphaseToken) : result datetime.t :=
  except_type_value
    (let? n := py_int (generation_time tk) in datetime.fromtimestamp lt n)
    "Error converting `generation_time` to datetime.".

Definition end_ (lt : datetime.zone) (tk : EnphaseToken) : result datetime.t :=
  except_type_value
    (let? n := py_int (expires_at tk) in datetime.fromtimestamp lt n)
    "Error converting `expires_at` to datetime.".

(** [EnphaseToken.is_valid] in the local zone [lt], with the naive time
    [now] that [datetime.now()] returns.  The chained comparison reads
    [self.end] only after [self.start <= now] held. *)
Definition is_valid (lt : datetime.zone) (tk : EnphaseToken) (now : datetime.t)
  : result bool :=
  if py_truthy (generation_time tk) && py_truthy (expires_at tk) then
    let? s := start lt tk in
    if s <=? now then
      let? e := end_ lt tk in
      Ok (now <=? e)
    else Ok false
  else Raise (Exception "Cannot check is_valid; missing one of `generation_time`, `expires_at`.").

(** A dataclass built from a dict by keyword unpacking: the dict's keys must
    be exactly the fields. *)
Definition kwargs (fields : list string) (d : json) : result (list (string * json)) :=
  match d with
  | JObject kvs =>
      if forallb (fun kv => existsb (String.eqb (fst kv)) fields) kvs
         && forallb (dict_has kvs) fields
      then Ok kvs else Raise TypeError
  | _ => Raise TypeError
  end.

Definition EnphaseToken_of (d : json) : result EnphaseToken :=
  let? kvs := kwargs ["token"; "generation_time"; "expires_at"] d in
  Ok {| token := dict_get kvs "token";
        generation_time := dict_get kvs "generation_time";
        expires_at := dict_get kvs "expires_at" |}.

Definition EnphaseConfig_of (d : json) : result EnphaseConfig :=
  let? kvs := kwargs ["username"; "password"; "serial"; "envoy"; "site_id"] d in
  Ok {| username := dict_get kvs "username";
        password := dict_get kvs "password";
        serial := dict_get kvs "serial";
        envoy := dict_get kvs "envoy";
        site_id := dict_get kvs "site_id" |}.

(** [obj.__dict__] of the two dataclasses. *)
Definition token_dict (tk : EnphaseToken) : json :=
  JObject [("token", token tk);
           ("generation_time", generation_time tk);
           ("expires_at", expires_at tk)].

Definition config_dict (c : EnphaseConfig) : json :=
  JObject [("username", username c);
           ("password", password c);
           ("serial", serial c);
           ("envoy", envoy c);
           ("site_id", site_id c)].

(** ** The outside world *)

(** A text as [json.loads] sees it: either the serialisation of a value,
    which it decodes back to that value, or something it rejects. *)
Inductive text : Type :=
| json_dumps (j : json)
| not_json (s : string).

Definition json_loads (t : text) : result json :=
  match t with
  | json_dumps j => Ok j
  | not_json _ => Raise JSONDecodeError
  end.

Inductive verb : Type := GET | POST.

(** The URLs the f-strings build, by the value formatted into them. *)
Inductive url : Type :=
| login_url
| token_url (serial_num : json)
| envoy_url (host : json) (path : string).

Record request : Type := {
  req_session : nat;
  req_verb : verb;
  req_url : url;
  req_data : option (json * json);
  req_bearer : option json;
  req_verify : bool
}.

Inductive net_outcome : Type :=
| unreachable
| response (status : Z) (body : text).

Inductive event : Type :=
| EvRequest (r : request)
| EvRead
| EvWrite (t : text)
| EvPrintSummary (s : summary)
| EvPrintBreakers
| EvSleep (seconds : Z).

Definition is_request (e : event) : bool :=
  match e with EvRequest _ => true | _ => false end.

Definition is_login (e : event) : bool :=
  match e with
  | EvRequest r =>
      match req_url r with
      | login_url => true
      | token_url _ => true
      | envoy_url _ _ => false
      end
  | _ => false
  end.


Definition is_breakers (e : event) : bool :=
  match e with EvPrintBreakers => true | _ => false end.

(** The [Enphase] object. [_envoy_session] names a [requests.Session]. *)
Record Enphase : Type := {
  envoy_ssl_verify : bool;
  _config : option EnphaseConfig;
  _token : option EnphaseToken;
  _envoy_session : option nat
}.

(** The job [schedule.every(n).seconds.do(...)] registers. *)
Record Job : Type := {
  interval : Z;
  next_run : datetime.t
}.

(** [localtime] is the local zone as the platform has it and [clock] the
    naive local time that [datetime.now()] reads; [network] answers a
    request given everything that happened before it; [trace] is the
    history, oldest event first. *)
Record Machine : Type := {
  self : Enphase;
  job : option Job;
  config_file : option text;
  localtime : datetime.zone;
  clock : datetime.t;
  sessions : nat;
  network : list event -> request -> net_outcome;
  trace : list event
}.

Definition M (A : Type) : Type := Machine -> result A * Machine.

Definition ret {A} (a : A) : M A := fun m => (Ok a, m).
Definition raise {A} (e : exn) : M A := fun m => (Raise e, m).
Definition bind {A B} (c : M A) (k : A -> M B) : M B :=
  fun m => match c m with
           | (Ok a, m') => k a m'
           | (Raise e, m') => (Raise e, m')
           end.
Definition lift {A} (r : result A) : M A := fun m => (r, m).

Declare Scope monad_scope.
Delimit Scope monad_scope with monad.
Notation "x <- c ;; k" := (bind c (fun x => k))
  (at level 61, c at next level, right associativity) : monad_scope.
Notation "c ;; k" := (bind c (fun _ => k))
  (at level 61, right associativity) : monad_scope.
Local Open Scope monad_scope.

(** Field updates of the machine. *)
Definition with_self (s : Enphase) (m : Machine) : Machine :=
  {| self := s; job := job m; config_file := config_file m;
     localtime := localtime m; clock := clock m;
     sessions := sessions m; network := network m; trace := trace m |}.
Definition with_job (j : option Job) (m : Machine) : Machine :=
  {| self := self m; job := j; config_file := config_file m;
     localtime := localtime m; clock := clock m;
     sessions := sessions m; network := network m; trace := trace m |}.
Definition with_config_file (f : option text) (m : Machine) : Machine :=
  {| self := self m; job := job m; config_file := f;
     localtime := localtime m; clock := clock m;
     sessions := sessions m; network := network m; trace := trace m |}.
Definition with_clock (c : datetime.t) (m : Machine) : Machine :=
  {| self := self m; job := job m; config_file := config_file m;
     localtime := localtime m; clock := c;
     sessions := sessions m; network := network m; trace := trace m |}.
Definition with_sessions (n : nat) (m : Machine) : Machine :=
  {| self := self m; job := job m; config_file := config_file m;
     localtime := localtime m; clock := clock m;
     sessions := n; network := network m; trace := trace m |}.
Definition with_trace (t : list event) (m : Machine) : Machine :=
  {| self := self m; job := job m; config_file := config_file m;
     localtime := localtime m; clock := clock m;
     sessions := sessions m; network := network m; trace := t |}.

Definition get_self : M Enphase := fun m => (Ok (self m), m).
Definition set_self (s : Enphase) : M unit := fun m => (Ok tt, with_self s m).
Definition log (e : event) : M unit := fun m =>
  (Ok tt, with_trace (trace m ++ [e]) m).

(** [datetime.now()] *)
Definition datetime_now : M datetime.t := fun m => (Ok (clock m), m).

(** The zone that [datetime.fromtimestamp] converts into. *)
Definition local_zone : M datetime.zone := fun m => (Ok (localtime m), m).

(** [time.sleep(n)]: the clock shows [n] seconds more, the zone keeping its
    offset meanwhile. *)
Definition sleep (n : Z) : M unit := fun m =>
  (Ok tt, with_trace (trace m ++ [EvSleep n]) (with_clock (clock m + n * 1000000) m)).

(** [requests.Session()]: a fresh session object, no traffic. *)
Definition new_session : M nat := fun m =>
  (Ok (sessions m), with_sessions (S (sessions m)) m).

(** [session.get]/[session.post]: the request goes out; a transport failure
    raises, any HTTP status comes back as a response. *)
Definition send (r : request) : M (Z * text) := fun m =>
  let m' := with_trace (trace m ++ [EvRequest r]) m in
  match network m (trace m) r with
  | unreachable => (Raise RequestException, m')
  | response st b => (Ok (st, b), m')
  end.

(** [open("enphase.config", "r")] then [f.read()]. *)
Definition read_config_file : M text := fun m =>
  match config_file m with
  | None => (Raise FileNotFoundError, m)
  | Some t => (Ok t, with_trace (trace m ++ [EvRead]) m)
  end.

(** The file's content replaced by [t]: [open(..., "w")] leaves it empty,
    [f.write(t)] fills it. *)
Definition write_config_file (t : text) : M unit := fun m =>
  (Ok tt, with_trace (trace m ++ [EvWrite t]) (with_config_file (Some t) m)).

(** ** [enphase.py]: the [Enphase] class *)

Definition set_token (tk : EnphaseToken) : M unit :=
  s <- get_self ;;
  set_self {| envoy_ssl_verify := envoy_ssl_verify s; _config := _config s;
              _token := Some tk; _envoy_session := _envoy_session s |}.

Definition set_envoy_session (sess : nat) : M unit :=
  s <- get_self ;;
  set_self {| envoy_ssl_verify := envoy_ssl_verify s; _config := _config s;
              _token := _token s; _envoy_session := Some sess |}.

(** The [config] setter: a decoded value is never an [EnphaseConfig]
    instance, so anything but a dict is of unknown type. *)
Definition set_config (config : json) : M unit :=
  match config with
  | JObject _ =>
      c <- lift (EnphaseConfig_of config) ;;
      s <- get_self ;;
      set_self {| envoy_ssl_verify := envoy_ssl_verify s; _config := Some c;
                  _token := _token s; _envoy_session := _envoy_session s |}
  | _ => raise (Exception "Enphase config provided is of unknown type.")
  end.

Definition saved_document (c : EnphaseConfig) (tk : EnphaseToken) : json :=
  JObject [("config", config_dict c); ("token", token_dict tk)].

Definition save : M unit :=
  write_config_file (not_json "") ;;
  s <- get_self ;;
  match _config s, _token s with
  | Some c, Some tk => write_config_file (json_dumps (saved_document c tk))
  | _, _ => raise AttributeError
  end.

Definition get_new_token : M EnphaseToken :=
  s <- get_self ;;
  match _config s with
  | None => raise AttributeError
  | Some c =>
      if negb (py_truthy (username c)) && negb (py_truthy (password c))
         && negb (py_truthy (serial c))
      then raise (Exception "Username, password and envoy serial number are required.")
      else
        session <- new_session ;;
        send {| req_session := session; req_verb := POST; req_url := login_url;
                req_data := Some (username c, password c);
                req_bearer := None; req_verify := true |} ;;
        token_response <- send {| req_session := session; req_verb := GET;
                                  req_url := token_url (serial c);
                                  req_data := None; req_bearer := None;
                                  req_verify := true |} ;;
        d <- lift (json_loads (snd token_response)) ;;
        tk <- lift (EnphaseToken_of d) ;;
        set_token tk ;;
        ret tk
  end.

(** [tk.is_valid()] with the clock read where the method reads it. *)
Definition token_is_valid (tk : EnphaseToken) : M bool :=
  lt <- local_zone ;;
  now <- datetime_now ;;
  lift (is_valid lt tk now).

Definition load : M unit :=
  t <- read_config_file ;;
  d <- lift (json_loads t) ;;
  d_config <- lift (py_get d "config") ;;
  d_token <- lift (py_get d "token") ;;
  set_config d_config ;;
  tk <- lift (EnphaseToken_of d_token) ;;
  set_token tk ;;
  valid <- token_is_valid tk ;;
  if negb valid then get_new_token ;; save else ret tt.

Definition create_envoy_session : M nat :=
  s <- get_self ;;
  match _envoy_session s with
  | Some session => ret session
  | None =>
      session <- new_session ;;
      match _config s, _token s with
      | Some c, Some tk =>
          send {| req_session := session; req_verb := GET;
                  req_url := envoy_url (envoy c) "/auth/check_jwt";
                  req_data := None; req_bearer := Some (token tk);
                  req_verify := envoy_ssl_verify s |} ;;
          set_envoy_session session ;;
          ret session
      | _, _ => raise AttributeError
      end
  end.

Definition ivp_ensemble_inventory : M json :=
  session <- create_envoy_session ;;
  s <- get_self ;;
  match _config s with
  | None => raise AttributeError
  | Some c =>
      resp <- send {| req_session := session; req_verb := GET;
                      req_url := envoy_url (envoy c) "/ivp/ensemble/inventory";
                      req_data := None; req_bearer := None;
                      req_verify := envoy_ssl_verify s |} ;;
      lift (json_loads (snd resp))
  end.

(** ** [__main__.py]: the poll cycle and the main loop *)

Definition poll_enphase : M unit :=
  raw_data <- ivp_ensemble_inventory ;;
  processed_data <- lift (process_ensemble_inventory raw_data) ;;
  log (EvPrintSummary processed_data) ;;
  match grid_status processed_data with
  | DOWN => log EvPrintBreakers
  | UP => ret tt
  end.

(** The [schedule] library, for the one job the program registers: the job
    runs when its [next_run] has come, is rescheduled one interval after the
    run, and whatever it raises leaves [run_pending] uncaught. *)
Module schedule.
Definition set_job (j : option Job) : M unit := fun m => (Ok tt, with_job j m).

Definition every_seconds_do (n : Z) : M unit :=
  now <- datetime_now ;;
  set_job (Some {| interval := n; next_run := now + n * 1000000 |}).

Definition run_pending (job_func : M unit) : M unit := fun m =>
  match job m with
  | None => (Ok tt, m)
  | Some j =>
      if next_run j <=? clock m then
        (job_func ;;
         now <- datetime_now ;;
         set_job (Some {| interval := interval j;
                          next_run := now + interval j * 1000000 |})) m
      else (Ok tt, m)
  end.
End schedule.

(** [while True: run_pending(); time.sleep(1)], unrolled [fuel] times: [Ok]
    means the loop is still running after that many rounds. *)
Fixpoint main_loop (fuel : nat) : M unit :=
  match fuel with
  | O => ret tt
  | S n => schedule.run_pending poll_enphase ;; sleep 1 ;; main_loop n
  end.

Definition main (fuel : nat) : M unit :=
  set_self {| envoy_ssl_verify := false; _config := None; _token := None;
              _envoy_session := None |} ;;
  load ;;
  schedule.every_seconds_do 10 ;;
  main_loop fuel.

(** ** Vocabulary of the specification *)

Definition is_object (x : json) : bool :=
  match x with JObject _ => true | _ => false end.

(** The field [k] of an entry; [JNull] when absent or when [x] is no object. *)
Definition field (x : json) (k : string) : json :=
  match x with JObject kvs => dict_get kvs k | _ => JNull end.

Definition has_type (ty : string) (x : json) : bool :=
  is_object x && py_eq_str (field x "type") ty.

(** The first entry of the inventory whose [type] is [ty]. *)
Definition first_entry (ty : string) (items : list json) : option json :=
  find (has_type ty) items.

(** The entries that the scan for the first entry of type [ty] looks at:
    those up to and including that entry, all of them when there is none. *)
Fixpoint scanned (ty : string) (items : list json) : list json :=
  match items with
  | [] => []
  | item :: rest =>
      if has_type ty item then [item] else item :: scanned ty rest
  end.

(** The first device of an entry's [devices] list. *)
Definition first_device (e : json) : option json :=
  match field e "devices" with
  | JArray (d :: _) => Some d
  | _ => None
  end.

(** [e.get("devices")[0]] for an entry [e], with the error it may raise. *)
Definition first_device_lookup (e : json) : result json :=
  py_getitem0 (field e "devices").

Definition percent (n : Z) : Prop := 0 <= n <= 100.

(** At the timestamp [n], which fits [time_t], and a day before it the zone
    [lt] stands [off] seconds from UTC, and both readings lie in the years
    1 to 9999. *)
Definition at_offset (lt : datetime.zone) (off n : Z) : Prop :=
  - 2 ^ 63 <= n < 2 ^ 63
  /\ lt n = Some (n + off)
  /\ lt (n - 86400) = Some (n - 86400 + off)
  /\ datetime.min_timestamp <= n - 86400 + off
  /\ n + off <= datetime.max_timestamp.

(** The naive time a clock shows at the instant [now], in microseconds
    since the epoch, where the zone stands [off] seconds from UTC. *)
Definition reading (off : Z) (now : Z) : datetime.t := now + off * 1000000.

(** The reduction-layer errors the specification names. *)
Inductive reduction_error : Type :=
| MissingDevice (ty : string)
| BatteryFieldError
| NoBatteries.

(** The grid status as a function of the first ENPOWER entry's first device,
    the battery levels as a function of the first ENCHARGE entry. *)
Definition grid_of_lookup (o : option (result json)) : result grid :=
  match o with
  | None => Raise StopIteration
  | Some r =>
      let? device := r in
      let? state := py_get device "mains_oper_state" in
      Ok (if py_eq_str state "closed" then UP else DOWN)
  end.

Definition levels_of_entry (o : option json) : result (list Z) :=
  match o with
  | None => Raise StopIteration
  | Some encharge =>
      let? devs := py_iter (field encharge "devices") in
      result_map device_level devs
  end.

(** ** What a trace shows *)

Definition is_fetch (e : event) : bool :=
  match e with
  | EvRequest r =>
      match req_url r with
      | envoy_url _ path => String.eqb path "/ivp/ensemble/inventory"
      | _ => false
      end
  | _ => false
  end.

Definition requests_in (t : list event) : nat := List.length (filter is_request t).
Definition fetches_in (t : list event) : nat := List.length (filter is_fetch t).
Definition breakers_in (t : list event) : list event := filter is_breakers t.

(** A relation between the machine before and after that every run of [c]
    respects, whether [c] returns or raises. *)
Definition preserves {A} (R : Machine -> Machine -> Prop) (c : M A) : Prop :=
  forall m, R m (snd (c m)).

(** No login happened and the token is the same. *)
Definition no_login (m m' : Machine) : Prop :=
  (exists evs, trace m' = trace m ++ evs /\ existsb is_login evs = false)
  /\ _token (self m') = _token (self m).

Definition no_breakers (m m' : Machine) : Prop :=
  breakers_in (trace m') = breakers_in (trace m).

(** ** Composite runs *)

Definition create_envoy_session_twice : M (nat * nat) :=
  first <- create_envoy_session ;;
  second <- create_envoy_session ;;
  ret (first, second).

(** A new [Enphase()] object, as the program creates before [load]. *)
Definition blank (verify : bool) : Enphase :=
  {| envoy_ssl_verify := verify; _config := None; _token := None;
     _envoy_session := None |}.

Definition save_then_load (verify : bool) : M unit :=
  save ;; set_self (blank verify) ;; load.

Definition saved_text (c : EnphaseConfig) (tk : EnphaseToken) : text :=
  json_dumps (saved_document c tk).

(** The token the file holds, as [load] decodes it. *)
Definition stored_token (m : Machine) : result EnphaseToken :=
  match config_file m with
  | None => Raise FileNotFoundError
  | Some t =>
      let? d := json_loads t in
      let? d_token := py_get d "token" in
      EnphaseToken_of d_token
  end.

(** ** Sample inputs *)

Definition closed_enpower : json :=
  entry "ENPOWER" [JObject [("mains_oper_state", JString "closed")]].

Definition open_enpower : json :=
  entry "ENPOWER" [JObject [("mains_oper_state", JString "open")]].

Definition sample_encharge : json :=
  entry "ENCHARGE" [JObject [("percentFull", JString "80")];
                    JObject [("percentFull", JString "60")]].

Definition overfull_inventory : json :=
  JArray [ closed_enpower;
           entry "ENCHARGE" [JObject [("percentFull", JString "150")]] ].

Definition no_enpower_inventory : json :=
  JArray [ entry "ENCHARGE" [JObject [("percentFull", JString "80")]] ].

Definition no_encharge_inventory : json := JArray [ closed_enpower ].

Definition no_batteries_inventory : json :=
  JArray [ closed_enpower; entry "ENCHARGE" [] ].

(** The sample inventory with other entries around it: a group of another
    type in front, an ENPOWER entry with a second, open device in place of
    the first, and a second ENPOWER and a second ENCHARGE entry behind. *)
Definition crowded_inventory : list json :=
  [ entry "IQ8" [];
    entry "ENPOWER" [JObject [("mains_oper_state", JString "closed")];
                     JObject [("mains_oper_state", JString "open")]];
    sample_encharge;
    entry "ENPOWER" [JObject [("mains_oper_state", JString "open")]];
    entry "ENCHARGE" [JObject [("percentFull", JString "5")]] ].

(** The double 70.0, which is 0x1.18p+6. *)
Definition seventy : spec_float := S754_finite false 4925812092436480 (-46).

(** The zone UTC, on a platform whose [localtime] fails where the year does
    not fit a C [int]. *)
Definition utc : datetime.zone :=
  fun n =>
    if (-67768040609740800 <=? n) && (67768036191676799 >=? n) then Some n
    else None.

(** A zone four hours behind UTC until 2023-11-05 06:00:00 UTC and five
    hours behind from then on: that night the clocks go from 02:00 back to
    01:00, as they did in New York. *)
Definition eastern : datetime.zone :=
  fun n => Some (n + (if 1699164000 <=? n then -18000 else -14400)).

(** A token issued in July 2023 that expires at 05:30:00 UTC on 2023-11-05,
    half an hour before the clocks of [eastern] go back. *)
Definition autumn_token : EnphaseToken :=
  {| token := JString "t";
     generation_time := JInt 1690000000;
     expires_at := JInt 1699162200 |}.

(** A token issued at the same time and good for 180 days. *)
Definition winter_token : EnphaseToken :=
  {| token := JString "t";
     generation_time := JInt 1690000000;
     expires_at := JInt 1705552000 |}.

(** A token that expires after the year 9999, its timestamps stored as
    strings. *)
Definition endless_token : EnphaseToken :=
  {| token := JString "t";
     generation_time := JString "1700000000";
     expires_at := JString "999999999999" |}.

(** A token valid for a year, one timestamp a string, the other a number. *)
Definition year_token : EnphaseToken :=
  {| token := JString "t";
     generation_time := JString "1700000000";
     expires_at := JInt 1731536000 |}.

Definition old_token : EnphaseToken :=
  {| token := JString "old"; generation_time := JInt 1000; expires_at := JInt 2000 |}.

Definition new_token : EnphaseToken :=
  {| token := JString "new"; generation_time := JInt 3000; expires_at := JInt 4000 |}.

Definition home_config : EnphaseConfig :=
  {| username := JString "owner@example.org";
     password := JString "secret";
     serial := JString "202200000000";
     envoy := JString "envoy.local";
     site_id := JString "42" |}.

(** A cloud that issues the token [fresh] and a gateway that serves
    [inventory], both always reachable. *)
Definition network_serving (inventory : json) (fresh : EnphaseToken)
  : list event -> request -> net_outcome :=
  fun _ r =>
    match req_url r with
    | login_url => response 200 (not_json "<html></html>")
    | token_url _ => response 200 (json_dumps (token_dict fresh))
    | envoy_url _ path =>
        if String.eqb path "/ivp/ensemble/inventory"
        then response 200 (json_dumps inventory)
        else response 200 (not_json "")
    end.

(** The world before the program starts, at time [now] seconds in the zone
    [utc]: the file holds [home_config] and [tk], nothing has happened yet. *)
Definition installed (tk fresh : EnphaseToken) (now : Z) (inventory : json) : Machine :=
  {| self := blank true;
     job := None;
     config_file := Some (saved_text home_config tk);
     localtime := utc;
     clock := now * 1000000;
     sessions := 0;
     network := network_serving inventory fresh;
     trace := [] |}.

(** The program at a tick where the job is due, at time [now] seconds,
    holding [tk] and no gateway session. *)
Definition loaded (tk fresh : EnphaseToken) (now : Z) (inventory : json) : Machine :=
  {| self := {| envoy_ssl_verify := false; _config := Some home_config;
                _token := Some tk; _envoy_session := None |};
     job := Some {| interval := 10; next_run := now * 1000000 |};
     config_file := Some (saved_text home_config tk);
     localtime := utc;
     clock := now * 1000000;
     sessions := 0;
     network := network_serving inventory fresh;
     trace := [] |}.

(** The program one second after [old_token] expired. *)
Definition expired_machine : Machine :=
  loaded old_token new_token 2001 sample_inventory.

(** The program at a due tick, the gateway serving an empty inventory. *)
Definition failing_machine : Machine :=
  loaded old_token new_token 1500 (JArray []).

(** The program holding [old_token], still valid, and no gateway session,
    while the gateway cannot be reached. *)
Definition offline_machine : Machine :=
  {| self := {| envoy_ssl_verify := false; _config := Some home_config;
                _token := Some old_token; _envoy_session := None |};
     job := None;
     config_file := Some (saved_text home_config old_token);
     localtime := utc;
     clock := 1500 * 1000000;
     sessions := 0;
     network := fun _ _ => unreachable;
     trace := [] |}.

(** ** [enphase.py]: the methods the poll cycle does not use *)

(** [EnphaseToken.value] *)
Definition value (tk : EnphaseToken) : json := token tk.

(** What [validity] formats into its message: the two ends of the window and
    [(self.end - self.start).days], the whole days between them. *)
Record validity_report : Type := {
  valid_from : datetime.t;
  valid_to : datetime.t;
  valid_days : Z
}.

Definition microseconds_per_day : Z := 86400 * 1000000.

Definition validity (lt : datetime.zone) (tk : EnphaseToken)
  : result validity_report :=
  if py_truthy (token tk) && py_truthy (generation_time tk)
     && py_truthy (expires_at tk)
  then
    let? s := start lt tk in
    let? e := end_ lt tk in
    Ok {| valid_from := s; valid_to := e;
          valid_days := (e - s) / microseconds_per_day |}
  else Raise (Exception "Cannot check validity; missing one of `token`, `generation_time`, `expires_at`.").

(** The body that [home_json], [api_v1_production],
    [api_v1_production_inverters], [ivp_ensemble_inventory], [ivp_meters],
    [admin_lib_network_display_json] and [admin_lib_dba_json] share, up to
    the path. *)
Definition envoy_get_json (path : string) : M json :=
  session <- create_envoy_session ;;
  s <- get_self ;;
  match _config s with
  | None => raise AttributeError
  | Some c =>
      resp <- send {| req_session := session; req_verb := GET;
                      req_url := envoy_url (envoy c) path;
                      req_data := None; req_bearer := None;
                      req_verify := envoy_ssl_verify s |} ;;
      lift (json_loads (snd resp))
  end.

Definition home_json : M json := envoy_get_json "/home.json".
Definition api_v1_production : M json := envoy_get_json "/api/v1/production".
Definition api_v1_production_inverters : M json :=
  envoy_get_json "/api/v1/production/inverters".
Definition ivp_meters : M json := envoy_get_json "/ivp/meters".
Definition admin_lib_network_display_json : M json :=
  envoy_get_json "/admin/lib/network_display.json".
Definition admin_lib_dba_json : M json := envoy_get_json "/admin/lib/dba.json".

(** ** Notions for the further properties *)

(** The configuration the file holds, as [load] decodes it. *)
Definition stored_config (m : Machine) : result EnphaseConfig :=
  match config_file m with
  | None => Raise FileNotFoundError
  | Some t =>
      let? d := json_loads t in
      let? d_config := py_get d "config" in
      EnphaseConfig_of d_config
  end.

(** Every event added satisfies [P]. *)
Definition adds_only (P : event -> bool) (m m' : Machine) : Prop :=
  exists evs, trace m' = trace m ++ evs /\ forallb P evs = true.

(** A request that keeps each secret where it belongs: form data (the
    password) goes to the login URL only, a bearer token to the gateway's
    [/auth/check_jwt] only, and a request to the cloud verifies the
    certificate. *)
Definition discreet (r : request) : bool :=
  match req_url r with
  | login_url =>
      req_verify r && match req_bearer r with None => true | Some _ => false end
  | token_url _ =>
      req_verify r
      && match req_data r with None => true | Some _ => false end
      && match req_bearer r with None => true | Some _ => false end
  | envoy_url _ path =>
      match req_data r with None => true | Some _ => false end
      && match req_bearer r with
         | None => true
         | Some _ => String.eqb path "/auth/check_jwt"
         end
  end.

Definition discreet_event (e : event) : bool :=
  match e with EvRequest r => discreet r | _ => true end.

(** A request to the gateway that verifies the certificate or not as [flag]
    says, a request to the cloud that verifies it, or any other event. *)
Definition verifies_as (flag : bool) (e : event) : bool :=
  match e with
  | EvRequest r =>
      match req_url r with
      | envoy_url _ _ => Bool.eqb (req_verify r) flag
      | _ => req_verify r
      end
  | _ => true
  end.

(** What the program may add to the trace under the flag [flag]. *)
Definition proper (flag : bool) (e : event) : bool :=
  discreet_event e && verifies_as flag e.

(** A request to the gateway. *)
Definition is_gateway (e : event) : bool :=
  match e with
  | EvRequest r => match req_url r with envoy_url _ _ => true | _ => false end
  | _ => false
  end.

(** A request made on the session [session] without a bearer token, or any
    other event. *)
Definition on_session (session : nat) (e : event) : bool :=
  match e with
  | EvRequest r =>
      Nat.eqb (req_session r) session
      && match req_bearer r with None => true | Some _ => false end
  | _ => true
  end.

(** The object keeps a session it has. *)
Definition keeps_session (m m' : Machine) : Prop :=
  forall session, _envoy_session (self m) = Some session ->
                  _envoy_session (self m') = Some session.

(** What the polling loop may add to the trace under the flag [flag]:
    discreet requests to the gateway, verified as the flag says, the two
    printed messages and the sleeps; no request to the cloud and no access
    to the file. *)
Definition polling_event (flag : bool) (e : event) : bool :=
  match e with
  | EvRequest r =>
      match req_url r with
      | envoy_url _ _ => discreet r && Bool.eqb (req_verify r) flag
      | _ => false
      end
  | EvRead => false
  | EvWrite _ => false
  | _ => true
  end.

(** What polling keeps in order: configuration, token, certificate flag and
    file stay as they are, a cached session stays, every event added is a
    polling event under the flag, and with a session cached every request
    added goes over it without a bearer token. *)
Definition orderly (m m' : Machine) : Prop :=
  _config (self m') = _config (self m)
  /\ _token (self m') = _token (self m)
  /\ envoy_ssl_verify (self m') = envoy_ssl_verify (self m)
  /\ config_file m' = config_file m
  /\ keeps_session m m'
  /\ adds_only (polling_event (envoy_ssl_verify (self m))) m m'
  /\ forall session, _envoy_session (self m) = Some session ->
                     adds_only (on_session session) m m'.

(** Clock, job and file are what they were. *)
Definition same_surroundings (m m' : Machine) : Prop :=
  clock m' = clock m /\ job m' = job m /\ config_file m' = config_file m.


(** One endpoint call per path, in order: a chain of calls as a caller such
    as [save_snapshot] makes them. *)
Fixpoint fetch_all (paths : list string) : M (list json) :=
  match paths with
  | [] => ret []
  | p :: rest =>
      body <- envoy_get_json p ;;
      bodies <- fetch_all rest ;;
      ret (body :: bodies)
  end.

Definition check_request (m : Machine) (c : EnphaseConfig) (tk : EnphaseToken)
  : request :=
  {| req_session := sessions m; req_verb := GET;
     req_url := envoy_url (envoy c) "/auth/check_jwt";
     req_data := None; req_bearer := Some (token tk);
     req_verify := envoy_ssl_verify (self m) |}.

(** * Properties *)

(** ** Python conversions on sample values *)

Example int_of_str_plain : int_of_str "80" = Ok 80.
Proof. reflexivity. Qed.

Example int_of_str_padded : int_of_str "  -1_000 " = Ok (-1000).
Proof. reflexivity. Qed.

Example int_of_str_rejects :
  int_of_str "" = Raise ValueError
  /\ int_of_str "8 0" = Raise ValueError
  /\ int_of_str "1__0" = Raise ValueError
  /\ int_of_str "80.5" = Raise ValueError
  /\ int_of_str "_80" = Raise ValueError.
Proof. repeat split. Qed.

(** [int(80.5)] is 80: the float 161 * 2^-1. *)
Example py_int_float : py_int (JFloat (S754_finite false 161 (-1))) = Ok 80.
Proof. reflexivity. Qed.

Example py_int_none : py_int JNull = Raise TypeError.
Proof. reflexivity. Qed.

Example py_truediv_mean : py_truediv 140 2 = Ok seventy.
Proof. vm_compute. reflexivity. Qed.

Example py_truediv_zero : py_truediv 0 0 = Raise ZeroDivisionError.
Proof. reflexivity. Qed.

(** [200 / 3] is 0x1.0aaaaaaaaaaabp+6, [(2**53 + 1) / 1] is 2.0**53,
    [1 / 2**1075] is 0.0 and [0 / -5] is -0.0. *)
Example py_truediv_rounds :
  py_truediv 200 3 = Ok (S754_finite false 4691249611844267 (-46))
  /\ py_truediv (2 ^ 53 + 1) 1 = Ok (S754_finite false 4503599627370496 1)
  /\ py_truediv 1 (2 ^ 1075) = Ok (S754_zero false)
  /\ py_truediv 0 (-5) = Ok (S754_zero true).
Proof. split; [|split; [|split]]; vm_compute; reflexivity. Qed.

Example py_truediv_overflows :
  py_truediv (2 ^ 1024 - 2 ^ 970) 1 = Raise OverflowError
  /\ py_truediv (2 ^ 1024 - 2 ^ 970 - 1) 1
     = Ok (S754_finite false 9007199254740991 971).
Proof. split; vm_compute; reflexivity. Qed.

Example fromtimestamp_far :
  datetime.fromtimestamp utc 99999999999999 = Raise ValueError.
Proof. reflexivity. Qed.

(** In UTC the first day of the year 1 cannot be converted, for want of a
    day before it; the last second of the year 9999 can. *)
Example fromtimestamp_ends :
  datetime.fromtimestamp utc (-62135596800) = Raise ValueError
  /\ datetime.fromtimestamp utc (-62135510401) = Raise ValueError
  /\ datetime.fromtimestamp utc (-62135510400) = Ok (-62135510400 * 1000000)
  /\ datetime.fromtimestamp utc 253402300799 = Ok (253402300799 * 1000000)
  /\ datetime.fromtimestamp utc 253402300800 = Raise ValueError.
Proof. repeat split. Qed.

Example fromtimestamp_beyond :
  datetime.fromtimestamp utc (10 ^ 17) = Raise OSError
  /\ datetime.fromtimestamp utc (2 ^ 63 - 1) = Raise OSError
  /\ datetime.fromtimestamp utc (2 ^ 63) = Raise OverflowError
  /\ datetime.fromtimestamp utc (- 2 ^ 63 - 1) = Raise OverflowError.
Proof. repeat split. Qed.

(** West of Greenwich the range ends later, and it is the reading that
    counts after the clocks went back: 01:10 comes before 01:30. *)
Example fromtimestamp_eastern :
  datetime.fromtimestamp eastern 253402300800 = Ok (253402282800 * 1000000)
  /\ datetime.fromtimestamp eastern 1699162200 = Ok (1699147800 * 1000000)
  /\ datetime.fromtimestamp eastern 1699164600 = Ok (1699146600 * 1000000).
Proof. repeat split. Qed.

(** ** The reducer *)

Lemma rbind_Ok {A B} (r : result A) (k : A -> result B) (b : B) :
  rbind r k = Ok b -> exists a, r = Ok a /\ k a = Ok b.
Proof. destruct r as [a|e]; simpl; intros H; [eauto | discriminate]. Qed.

Lemma py_get_Ok x k v :
  py_get x k = Ok v -> exists kvs, x = JObject kvs /\ v = dict_get kvs k.
Proof. destruct x; simpl; intros H; try discriminate. inversion H. eauto. Qed.

Lemma py_get_object x k : is_object x = true -> py_get x k = Ok (field x k).
Proof. destruct x; simpl; intros H; try discriminate. reflexivity. Qed.

Lemma next_of_type_Ok ty items e :
  next_of_type ty items = Ok e -> first_entry ty items = Some e.
Proof.
  unfold first_entry. induction items as [|x items IH]; simpl; [discriminate|].
  intros H. apply rbind_Ok in H as (t & Ht & H).
  apply py_get_Ok in Ht as (kvs & -> & ->).
  unfold has_type; simpl.
  destruct (py_eq_str (dict_get kvs "type") ty).
  - inversion H. reflexivity.
  - auto.
Qed.

Lemma scanned_objects ty items :
  forallb is_object items = true -> forallb is_object (scanned ty items) = true.
Proof.
  induction items as [|x items IH]; simpl; [reflexivity|].
  intros H. apply andb_true_iff in H as [Hx Hrest].
  destruct (has_type ty x); simpl; rewrite Hx; auto.
Qed.

(** The scan finds the first entry of the type when every entry it looks at
    is an object. *)
Lemma next_of_type_scanned ty items :
  forallb is_object (scanned ty items) = true ->
  next_of_type ty items
  = match first_entry ty items with
    | Some e => Ok e
    | None => Raise StopIteration
    end.
Proof.
  unfold first_entry. induction items as [|x items IH]; simpl; [reflexivity|].
  destruct (has_type ty x) eqn:Hx; unfold has_type in Hx.
  - intros _. apply andb_true_iff in Hx as [Ho Ht].
    rewrite (py_get_object _ _ Ho). simpl. now rewrite Ht.
  - simpl. intros H. apply andb_true_iff in H as [Ho Hrest].
    rewrite (py_get_object _ _ Ho). simpl.
    rewrite Ho in Hx. simpl in Hx. rewrite Hx. auto.
Qed.

(** It raises at the first entry it looks at that is no object. *)
Lemma next_of_type_non_object ty items :
  forallb is_object (scanned ty items) = false ->
  next_of_type ty items = Raise AttributeError.
Proof.
  induction items as [|x items IH]; simpl; [discriminate|].
  destruct (has_type ty x) eqn:Hx; unfold has_type in Hx; simpl.
  - apply andb_true_iff in Hx as [Ho _]. rewrite Ho. discriminate.
  - destruct (is_object x) eqn:Ho; simpl.
    + intros H. rewrite (py_get_object _ _ Ho). simpl.
      simpl in Hx. rewrite Hx. auto.
    + intros _. destruct x; try reflexivity. discriminate.
Qed.

Lemma next_of_type_objects ty items :
  forallb is_object items = true ->
  next_of_type ty items
  = match first_entry ty items with
    | Some e => Ok e
    | None => Raise StopIteration
    end.
Proof. intros H. now apply next_of_type_scanned, scanned_objects. Qed.

Lemma first_entry_object ty items e :
  first_entry ty items = Some e -> is_object e = true.
Proof.
  unfold first_entry. intros H. apply find_some in H as [_ H].
  unfold has_type in H. apply andb_true_iff in H. tauto.
Qed.

Lemma process_array items :
  process_ensemble_inventory (JArray items)
  = (let? gs := grid_status_of items in
     let? levels := battery_levels_of items in
     let? avg := py_truediv (py_sum levels) (Z.of_nat (List.length levels)) in
     Ok {| grid_status := gs; battery_levels := levels; battery_level := avg |}).
Proof. reflexivity. Qed.

Lemma chars_of_map s :
  exists l, chars_of s = map (fun c => JString (String c EmptyString)) l.
Proof.
  induction s as [|c s [l IH]]; [exists []; reflexivity|].
  exists (c :: l). simpl. now rewrite IH.
Qed.

Lemma next_of_type_all_strings ty (l : list json) :
  (forall x, In x l -> exists s, x = JString s) ->
  exists e, next_of_type ty l = Raise e.
Proof.
  destruct l as [|x l]; simpl; intros H; [eauto|].
  destruct (H x) as [s ->]; [now left|]. simpl. eauto.
Qed.

(** Only a JSON array can be reduced: iterating a dict or a string yields
    strings, which have no [get]. *)
Lemma process_Ok_array data s :
  process_ensemble_inventory data = Ok s -> exists items, data = JArray items.
Proof.
  intros H. destruct data; try discriminate; [|eauto|].
  - exfalso. unfold process_ensemble_inventory in H. simpl in H.
    destruct (chars_of_map s0) as [l Hl]. rewrite Hl in H.
    unfold grid_status_of in H.
    destruct (next_of_type_all_strings "ENPOWER"
                (map (fun c => JString (String c EmptyString)) l)) as [e He].
    { intros x Hx. apply in_map_iff in Hx as (c & <- & _). eauto. }
    rewrite He in H. discriminate.
  - exfalso. unfold process_ensemble_inventory in H. simpl in H.
    unfold grid_status_of in H.
    destruct (next_of_type_all_strings "ENPOWER"
                (map (fun kv : string * json => JString (fst kv)) kvs)) as [e He].
    { intros x Hx. apply in_map_iff in Hx as (c & <- & _). eauto. }
    rewrite He in H. discriminate.
Qed.

Lemma py_eq_str_true x s : py_eq_str x s = true <-> x = JString s.
Proof.
  destruct x; simpl; try (split; [discriminate | intros H; discriminate H]).
  rewrite String.eqb_eq. split; [now intros -> | now inversion 1].
Qed.

Lemma py_getitem0_object devices d :
  py_getitem0 devices = Ok d -> is_object d = true ->
  exists rest, devices = JArray (d :: rest).
Proof.
  destruct devices as [| | | |s|items|]; simpl; try discriminate.
  - destruct s; [discriminate|]. intros H; inversion H; subst. discriminate.
  - destruct items; [discriminate|]. intros H; inversion H; subst. eauto.
Qed.

(** What lines 12-14 compute when they do not raise. *)
Lemma grid_status_of_Ok items g :
  grid_status_of items = Ok g ->
  exists enpower device,
    first_entry "ENPOWER" items = Some enpower
    /\ first_device enpower = Some device
    /\ g = if py_eq_str (field device "mains_oper_state") "closed" then UP else DOWN.
Proof.
  unfold grid_status_of. intros H.
  apply rbind_Ok in H as (enpower & He & H).
  apply rbind_Ok in H as (devices & Hd & H).
  apply rbind_Ok in H as (device & H0 & H).
  apply rbind_Ok in H as (state & Hs & H).
  apply next_of_type_Ok in He.
  apply py_get_Ok in Hd as (kvs & -> & ->).
  apply py_get_Ok in Hs as (dkvs & -> & ->).
  apply py_getitem0_object in H0 as [rest Hrest]; [|reflexivity].
  exists (JObject kvs), (JObject dkvs). split; [assumption|]. split.
  - unfold first_device. simpl. now rewrite Hrest.
  - inversion H. reflexivity.
Qed.

Lemma next_of_type_none ty items :
  first_entry ty items = None ->
  exists e, next_of_type ty items = Raise e
            /\ (forallb is_object items = true -> e = StopIteration).
Proof.
  unfold first_entry. induction items as [|x items IH]; simpl.
  - eauto.
  - unfold has_type at 1. destruct x; simpl;
      try (intros _; exists AttributeError; split; [reflexivity | discriminate]).
    destruct (py_eq_str (dict_get kvs "type") ty); [discriminate|]. exact IH.
Qed.

Lemma result_map_Forall2 {A B} (f : A -> result B) l bs :
  result_map f l = Ok bs <-> Forall2 (fun a b => f a = Ok b) l bs.
Proof.
  revert bs. induction l as [|a l IH]; simpl; intros bs.
  - split; [intros H; inversion H; constructor | inversion 1; reflexivity].
  - split.
    + intros H. apply rbind_Ok in H as (b & Hb & H).
      apply rbind_Ok in H as (bs' & Hbs & H). inversion H; subst.
      constructor; [assumption | now apply IH].
    + inversion 1; subst. rewrite H2. simpl.
      apply IH in H4. rewrite H4. reflexivity.
Qed.

Lemma device_level_Ok d n :
  device_level d = Ok n <-> is_object d = true /\ py_int (field d "percentFull") = Ok n.
Proof.
  unfold device_level. destruct d; simpl;
    try (split; [discriminate | intros [H _]; discriminate H]).
  split; [now split | now intros [_ H]].
Qed.

(** What lines 16-18 compute when they do not raise. *)
Lemma battery_levels_of_Ok items levels :
  battery_levels_of items = Ok levels ->
  exists encharge devs,
    first_entry "ENCHARGE" items = Some encharge
    /\ py_iter (field encharge "devices") = Ok devs
    /\ result_map device_level devs = Ok levels.
Proof.
  unfold battery_levels_of. intros H.
  apply rbind_Ok in H as (encharge & He & H).
  apply rbind_Ok in H as (devices & Hd & H).
  apply rbind_Ok in H as (devs & Hi & H).
  apply next_of_type_Ok in He.
  apply py_get_Ok in Hd as (kvs & -> & ->).
  exists (JObject kvs), devs. auto.
Qed.

Lemma py_truediv_nil_free levels avg :
  py_truediv (py_sum levels) (Z.of_nat (List.length levels)) = Ok avg -> levels <> [].
Proof. intros H ->. discriminate H. Qed.

(** Devices that all have a level form a JSON array, unless there are none:
    the keys of a dict and the characters of a string have no [get]. *)
Lemma levels_of_array devices devs levels :
  py_iter devices = Ok devs ->
  result_map device_level devs = Ok levels ->
  levels <> [] ->
  devices = JArray devs.
Proof.
  intros Hi Hm Hne. destruct devices; simpl in Hi; try discriminate.
  - exfalso. inversion Hi; subst; clear Hi.
    destruct s; simpl in Hm; [inversion Hm; congruence | discriminate].
  - now inversion Hi.
  - exfalso. inversion Hi; subst; clear Hi.
    destruct kvs; simpl in Hm; [inversion Hm; congruence | discriminate].
Qed.

Lemma Forall2_levels_percent (devs : list json) (levels : list Z) :
  Forall2 (fun d n => py_int (field d "percentFull") = Ok n) devs levels ->
  (Forall percent levels
   <-> Forall (fun d => exists n, py_int (field d "percentFull") = Ok n /\ percent n) devs).
Proof.
  induction 1 as [|d n devs levels Hd _ IH].
  - split; constructor.
  - split; intros HF; inversion HF; subst; constructor.
    + eauto.
    + now apply IH.
    + destruct H1 as (n' & Hn' & Hp). congruence.
    + now apply IH.
Qed.

Lemma grid_status_of_no_enpower items :
  first_entry "ENPOWER" items = None ->
  exists e, grid_status_of items = Raise e
            /\ (forallb is_object items = true -> e = StopIteration).
Proof.
  intros H. destruct (next_of_type_none _ _ H) as (e & He & Hobj).
  exists e. split; [|assumption]. unfold grid_status_of. now rewrite He.
Qed.

Lemma battery_levels_of_no_encharge items :
  first_entry "ENCHARGE" items = None ->
  exists e, battery_levels_of items = Raise e
            /\ (forallb is_object items = true -> e = StopIteration).
Proof.
  intros H. destruct (next_of_type_none _ _ H) as (e & He & Hobj).
  exists e. split; [|assumption]. unfold battery_levels_of. now rewrite He.
Qed.

Lemma battery_levels_of_no_devices items encharge :
  forallb is_object items = true ->
  first_entry "ENCHARGE" items = Some encharge ->
  field encharge "devices" = JArray [] ->
  battery_levels_of items = Ok [].
Proof.
  intros Hobj He Hd. unfold battery_levels_of.
  rewrite (next_of_type_objects _ _ Hobj), He. simpl.
  rewrite (py_get_object _ _ (first_entry_object _ _ _ He)). simpl.
  rewrite Hd. reflexivity.
Qed.

Lemma grid_status_of_scanned items :
  forallb is_object (scanned "ENPOWER" items) = true ->
  grid_status_of items
  = grid_of_lookup (option_map first_device_lookup (first_entry "ENPOWER" items)).
Proof.
  intros Hobj. unfold grid_status_of. rewrite (next_of_type_scanned _ _ Hobj).
  destruct (first_entry "ENPOWER" items) as [e|] eqn:He; simpl; [|reflexivity].
  rewrite (py_get_object _ _ (first_entry_object _ _ _ He)). reflexivity.
Qed.

Lemma battery_levels_of_scanned items :
  forallb is_object (scanned "ENCHARGE" items) = true ->
  battery_levels_of items = levels_of_entry (first_entry "ENCHARGE" items).
Proof.
  intros Hobj. unfold battery_levels_of. rewrite (next_of_type_scanned _ _ Hobj).
  destruct (first_entry "ENCHARGE" items) as [e|] eqn:He; simpl; [|reflexivity].
  rewrite (py_get_object _ _ (first_entry_object _ _ _ He)). reflexivity.
Qed.

Lemma grid_status_of_objects items :
  forallb is_object items = true ->
  grid_status_of items
  = grid_of_lookup (option_map first_device_lookup (first_entry "ENPOWER" items)).
Proof. intros H. now apply grid_status_of_scanned, scanned_objects. Qed.

Lemma battery_levels_of_objects items :
  forallb is_object items = true ->
  battery_levels_of items = levels_of_entry (first_entry "ENCHARGE" items).
Proof. intros H. now apply battery_levels_of_scanned, scanned_objects. Qed.

(** When every piece the reducer reads is in place, it returns. *)
Lemma process_returns items enpower device encharge devs levels avg :
  forallb is_object (scanned "ENPOWER" items) = true ->
  first_entry "ENPOWER" items = Some enpower ->
  first_device enpower = Some device ->
  is_object device = true ->
  forallb is_object (scanned "ENCHARGE" items) = true ->
  first_entry "ENCHARGE" items = Some encharge ->
  field encharge "devices" = JArray devs ->
  Forall2 (fun d n => device_level d = Ok n) devs levels ->
  py_truediv (py_sum levels) (Z.of_nat (List.length levels)) = Ok avg ->
  process_ensemble_inventory (JArray items)
  = Ok {| grid_status :=
            if py_eq_str (field device "mains_oper_state") "closed" then UP else DOWN;
          battery_levels := levels;
          battery_level := avg |}.
Proof.
  intros Hobj Hp Hd Hdo Hobj' Hc Hds Hl Havg.
  rewrite process_array, (grid_status_of_scanned _ Hobj),
    (battery_levels_of_scanned _ Hobj'), Hp, Hc. simpl.
  unfold first_device_lookup. unfold first_device in Hd.
  destruct (field enpower "devices") as [| | | | |[|d rest]|]; try discriminate.
  injection Hd as ->. simpl.
  rewrite (py_get_object _ _ Hdo). simpl.
  rewrite Hds. simpl.
  apply result_map_Forall2 in Hl. rewrite Hl. simpl.
  rewrite Havg. reflexivity.
Qed.

Lemma fold_left_add_shift (l : list Z) (a : Z) :
  fold_left Z.add l a = a + fold_left Z.add l 0.
Proof.
  revert a. induction l as [|x l IH]; intros a; simpl; [lia|].
  rewrite (IH (a + x)), (IH x). lia.
Qed.

Lemma py_sum_cons x l : py_sum (x :: l) = x + py_sum l.
Proof. unfold py_sum. simpl. apply fold_left_add_shift. Qed.

Lemma py_sum_bounds lo hi l :
  Forall (fun n => lo <= n <= hi) l ->
  lo * Z.of_nat (List.length l) <= py_sum l <= hi * Z.of_nat (List.length l).
Proof.
  induction 1 as [|x l Hx _ IH].
  - unfold py_sum. simpl. lia.
  - rewrite py_sum_cons. cbn [List.length]. lia.
Qed.

Lemma py_truediv_percent levels :
  levels <> [] ->
  Forall percent levels ->
  exists avg, py_truediv (py_sum levels) (Z.of_nat (List.length levels)) = Ok avg.
Proof.
  intros Hne Hp.
  assert (Hlen : 0 < Z.of_nat (List.length levels))
    by (destruct levels; [congruence | simpl; lia]).
  pose proof (py_sum_bounds 0 100 levels Hp) as Hs.
  unfold py_truediv.
  destruct (Z.eqb_spec (Z.of_nat (List.length levels)) 0); [lia|].
  destruct (Z.ltb_spec 0 (Z.of_nat (List.length levels))); [|lia].
  destruct (Qle_bool float_overflow_bound _) eqn:E; [exfalso|eauto].
  apply Qle_bool_iff in E.
  assert (Hhi : (Qabs (py_sum levels # Z.to_pos (Z.of_nat (List.length levels)))
                 <= inject_Z 100)%Q).
  { unfold Qabs, Qle. cbn [Qnum Qden inject_Z]. rewrite Z.abs_eq by lia.
    rewrite Z2Pos.id by assumption. lia. }
  assert (Hbound : ~ (float_overflow_bound <= inject_Z 100)%Q).
  { vm_compute. intros Hc. apply Hc. reflexivity. }
  apply Hbound. eapply Qle_trans; eassumption.
Qed.

(** C3. The reducer maps the sample inventory of the specification to the
    summary [UP], [[80; 60]], [70.0].  In general, whenever it returns a
    summary, the grid status is [UP] exactly when the first device of the
    first ENPOWER entry has [mains_oper_state] equal to the string [closed],
    and [DOWN] otherwise.  And it does return one, [UP] for [closed] and
    [DOWN] for anything else, on every inventory in which the entries the
    two scans look at are objects, the first ENPOWER entry has an object as
    first device, and the first ENCHARGE entry lists at least one device,
    each with a percentage for [percentFull]. *)
Theorem reduce_grid_status :
  process_ensemble_inventory sample_inventory
  = Ok {| grid_status := UP; battery_levels := [80; 60]; battery_level := seventy |}
  /\ (forall data s,
         process_ensemble_inventory data = Ok s ->
         exists items enpower device,
           data = JArray items
           /\ first_entry "ENPOWER" items = Some enpower
           /\ first_device enpower = Some device
           /\ (grid_status s = UP <-> field device "mains_oper_state" = JString "closed")
           /\ (grid_status s = DOWN <-> field device "mains_oper_state" <> JString "closed"))
  /\ (forall items enpower device encharge devs levels,
         forallb is_object (scanned "ENPOWER" items) = true ->
         first_entry "ENPOWER" items = Some enpower ->
         first_device enpower = Some device ->
         is_object device = true ->
         forallb is_object (scanned "ENCHARGE" items) = true ->
         first_entry "ENCHARGE" items = Some encharge ->
         field encharge "devices" = JArray devs ->
         devs <> [] ->
         Forall2 (fun d n => device_level d = Ok n) devs levels ->
         Forall percent levels ->
         exists s,
           process_ensemble_inventory (JArray items) = Ok s
           /\ battery_levels s = levels
           /\ (field device "mains_oper_state" = JString "closed" ->
               grid_status s = UP)
           /\ (field device "mains_oper_state" <> JString "closed" ->
               grid_status s = DOWN)).
Proof.
  split; [vm_compute; reflexivity|]. split.
  - intros data s H.
    destruct (process_Ok_array _ _ H) as [items ->].
    rewrite process_array in H.
    apply rbind_Ok in H as (g & Hg & H).
    apply rbind_Ok in H as (levels & _ & H).
    apply rbind_Ok in H as (avg & _ & H).
    inversion H; subst; clear H. simpl.
    apply grid_status_of_Ok in Hg as (enpower & device & He & Hd & ->).
    exists items, enpower, device. repeat split; try assumption.
    + intros Hup. apply py_eq_str_true.
      destruct (py_eq_str _ _); [reflexivity | discriminate].
    + intros Hc. apply py_eq_str_true in Hc. now rewrite Hc.
    + intros Hdown Hc. apply py_eq_str_true in Hc. rewrite Hc in Hdown. discriminate.
    + intros Hn. destruct (py_eq_str _ _) eqn:E; [|reflexivity].
      apply py_eq_str_true in E. contradiction.
  - intros items enpower device encharge devs levels Ho Hp Hd Hdo Ho' Hc Hds Hne Hl Hr.
    assert (Hlne : levels <> [])
      by (intros ->; inversion Hl; subst; congruence).
    destruct (py_truediv_percent levels Hlne Hr) as [avg Havg].
    eexists. split; [eapply process_returns; eassumption|]. simpl.
    split; [reflexivity|]. split.
    + intros Hs. apply py_eq_str_true in Hs. now rewrite Hs.
    + intros Hs. destruct (py_eq_str _ _) eqn:E; [|reflexivity].
      apply py_eq_str_true in E. contradiction.
Qed.

Lemma reduce_grid_status_witness :
  (exists items enpower device,
      sample_inventory = JArray items
      /\ first_entry "ENPOWER" items = Some enpower
      /\ first_device enpower = Some device
      /\ (UP = UP <-> field device "mains_oper_state" = JString "closed")
      /\ (UP = DOWN <-> field device "mains_oper_state" <> JString "closed"))
  /\ (exists s,
         process_ensemble_inventory (JArray [open_enpower; sample_encharge; JNull])
         = Ok s
         /\ battery_levels s = [80; 60]
         /\ grid_status s = DOWN).
Proof.
  destruct reduce_grid_status as (_ & Hread & Hreturns). split.
  - apply (Hread sample_inventory
             {| grid_status := UP; battery_levels := [80; 60];
                battery_level := seventy |}).
    vm_compute. reflexivity.
  - destruct (Hreturns [open_enpower; sample_encharge; JNull] open_enpower
                (JObject [("mains_oper_state", JString "open")])
                sample_encharge
                [JObject [("percentFull", JString "80")];
                 JObject [("percentFull", JString "60")]]
                [80; 60])
      as (s & Hs & Hl & _ & Hdown).
    + reflexivity.
    + reflexivity.
    + reflexivity.
    + reflexivity.
    + reflexivity.
    + reflexivity.
    + reflexivity.
    + discriminate.
    + repeat constructor.
    + repeat constructor; unfold percent; lia.
    + exists s. split; [exact Hs|]. split; [exact Hl|].
      apply Hdown. discriminate.
Defined.

(** C5, as stated, fails: the reducer has no errors of its own.  A missing
    ENPOWER entry and a missing ENCHARGE entry raise the same
    [StopIteration], so no reading of the raised exception can name the
    missing device. *)
Lemma missing_device_not_named :
  process_ensemble_inventory no_enpower_inventory = Raise StopIteration
  /\ process_ensemble_inventory no_encharge_inventory = Raise StopIteration
  /\ ~ exists name_of : exn -> reduction_error,
         (forall e, process_ensemble_inventory no_enpower_inventory = Raise e ->
                    name_of e = MissingDevice "ENPOWER")
         /\ (forall e, process_ensemble_inventory no_encharge_inventory = Raise e ->
                       name_of e = MissingDevice "ENCHARGE").
Proof.
  assert (H1 : process_ensemble_inventory no_enpower_inventory = Raise StopIteration)
    by (vm_compute; reflexivity).
  assert (H2 : process_ensemble_inventory no_encharge_inventory = Raise StopIteration)
    by (vm_compute; reflexivity).
  repeat split; try assumption.
  intros (name_of & Hp & Hc).
  specialize (Hp _ H1). specialize (Hc _ H2). rewrite Hp in Hc. discriminate.
Qed.

(** C5, amended. On each degenerate inventory the reducer raises and returns
    no summary, but with Python's own exceptions: for an inventory of
    objects, [StopIteration] when no entry has type ENPOWER, [StopIteration]
    again when the grid status was read and no entry has type ENCHARGE, and
    [ZeroDivisionError] when the grid status was read and the first ENCHARGE
    entry has an empty device list. *)
Theorem reduce_fails_on_degenerate_input :
  (forall items,
      first_entry "ENPOWER" items = None ->
      exists e, process_ensemble_inventory (JArray items) = Raise e
                /\ (forallb is_object items = true -> e = StopIteration))
  /\ (forall items,
         first_entry "ENCHARGE" items = None ->
         exists e, process_ensemble_inventory (JArray items) = Raise e
                   /\ (forallb is_object items = true ->
                       (exists g, grid_status_of items = Ok g) ->
                       e = StopIteration))
  /\ (forall items encharge,
         forallb is_object items = true ->
         first_entry "ENCHARGE" items = Some encharge ->
         field encharge "devices" = JArray [] ->
         exists e, process_ensemble_inventory (JArray items) = Raise e
                   /\ ((exists g, grid_status_of items = Ok g) ->
                       e = ZeroDivisionError)).
Proof.
  repeat split.
  - intros items H. rewrite process_array.
    destruct (grid_status_of_no_enpower _ H) as (e & He & Hobj).
    exists e. split; [now rewrite He | assumption].
  - intros items H. rewrite process_array.
    destruct (battery_levels_of_no_encharge _ H) as (e & He & Hobj).
    destruct (grid_status_of items) as [g|e'] eqn:Hg; simpl.
    + rewrite He. simpl. exists e. split; [reflexivity|]. intros Ho _. auto.
    + exists e'. split; [reflexivity|]. intros _ [g Hg']. discriminate.
  - intros items encharge Hobj He Hd. rewrite process_array.
    rewrite (battery_levels_of_no_devices _ _ Hobj He Hd).
    destruct (grid_status_of items) as [g|e'] eqn:Hg; simpl.
    + exists ZeroDivisionError. split; [reflexivity | auto].
    + exists e'. split; [reflexivity|]. intros [g Hg']. discriminate.
Qed.

Lemma reduce_fails_on_degenerate_input_witness :
  process_ensemble_inventory no_enpower_inventory = Raise StopIteration
  /\ process_ensemble_inventory no_encharge_inventory = Raise StopIteration
  /\ process_ensemble_inventory no_batteries_inventory = Raise ZeroDivisionError.
Proof.
  destruct reduce_fails_on_degenerate_input as (Hp & Hc & Hb).
  split; [|split].
  - destruct (Hp [entry "ENCHARGE" [JObject [("percentFull", JString "80")]]])
      as (e & He & Hobj); [reflexivity|].
    rewrite (Hobj eq_refl) in He. exact He.
  - destruct (Hc [closed_enpower]) as (e & He & Hobj); [reflexivity|].
    rewrite (Hobj eq_refl (ex_intro _ UP eq_refl)) in He. exact He.
  - destruct (Hb [closed_enpower; entry "ENCHARGE" []] (entry "ENCHARGE" []))
      as (e & He & Hg); [reflexivity | reflexivity | reflexivity |].
    rewrite (Hg (ex_intro _ UP eq_refl)) in He. exact He.
Defined.

(** C9, as stated, fails: a device reporting [percentFull] = "150" yields the
    battery level 150. *)
Lemma battery_level_out_of_range :
  exists s, process_ensemble_inventory overfull_inventory = Ok s
            /\ ~ Forall percent (battery_levels s).
Proof.
  eexists. split; [vm_compute; reflexivity|].
  simpl. intros H. inversion H as [|n l Hn _]; subst.
  unfold percent in Hn. lia.
Qed.

(** C9, amended. The battery levels of a summary are, in device order, the
    integers [int(percentFull)] of the devices of the first ENCHARGE entry;
    no range check is made, so they all lie in [0, 100] exactly when every
    device reports a value that converts into that range. *)
Theorem battery_levels_are_device_levels :
  forall data s,
    process_ensemble_inventory data = Ok s ->
    exists items encharge devs,
      data = JArray items
      /\ first_entry "ENCHARGE" items = Some encharge
      /\ field encharge "devices" = JArray devs
      /\ Forall2 (fun d n => py_int (field d "percentFull") = Ok n)
                 devs (battery_levels s)
      /\ (Forall percent (battery_levels s)
          <-> Forall (fun d => exists n, py_int (field d "percentFull") = Ok n
                                         /\ percent n) devs).
Proof.
  intros data s H.
  destruct (process_Ok_array _ _ H) as [items ->].
  rewrite process_array in H.
  apply rbind_Ok in H as (g & _ & H).
  apply rbind_Ok in H as (levels & Hl & H).
  apply rbind_Ok in H as (avg & Havg & H).
  inversion H; subst; clear H. simpl.
  apply battery_levels_of_Ok in Hl as (encharge & devs & He & Hi & Hm).
  pose proof (levels_of_array _ _ _ Hi Hm (py_truediv_nil_free _ _ Havg)) as Hd.
  assert (HF : Forall2 (fun d n => py_int (field d "percentFull") = Ok n) devs levels).
  { apply result_map_Forall2 in Hm.
    eapply Forall2_impl; [|exact Hm]. intros d n Hdn.
    apply device_level_Ok in Hdn. tauto. }
  exists items, encharge, devs. repeat split; try assumption.
  - now apply Forall2_levels_percent.
  - now apply Forall2_levels_percent.
Qed.

Lemma battery_levels_are_device_levels_witness :
  exists items encharge devs,
    sample_inventory = JArray items
    /\ first_entry "ENCHARGE" items = Some encharge
    /\ field encharge "devices" = JArray devs
    /\ Forall2 (fun d n => py_int (field d "percentFull") = Ok n) devs [80; 60]
    /\ (Forall percent [80; 60]
        <-> Forall (fun d => exists n, py_int (field d "percentFull") = Ok n
                                       /\ percent n) devs).
Proof.
  apply (battery_levels_are_device_levels sample_inventory
           {| grid_status := UP; battery_levels := [80; 60];
              battery_level := seventy |}).
  vm_compute. reflexivity.
Defined.

(** C10, as stated, fails: the entries the scans pass on their way count as
    well.  Two inventories with the same first ENPOWER entry and the same
    first ENCHARGE entry, one of them with a number between the two, are
    reduced differently: the scan for the ENCHARGE entry calls [get] on the
    number and raises [AttributeError], where the other inventory gives a
    summary. *)
Lemma reduce_depends_on_passed_entries :
  let items1 := [closed_enpower; JInt 1; sample_encharge] in
  let items2 := [closed_enpower; sample_encharge] in
  first_entry "ENPOWER" items1 = Some closed_enpower
  /\ first_entry "ENPOWER" items2 = Some closed_enpower
  /\ first_entry "ENCHARGE" items1 = Some sample_encharge
  /\ first_entry "ENCHARGE" items2 = Some sample_encharge
  /\ process_ensemble_inventory (JArray items1) = Raise AttributeError
  /\ process_ensemble_inventory (JArray items2)
     = Ok {| grid_status := UP; battery_levels := [80; 60];
             battery_level := seventy |}
  /\ process_ensemble_inventory (JArray items1)
     <> process_ensemble_inventory (JArray items2).
Proof.
  repeat split; try (vm_compute; reflexivity).
  vm_compute. discriminate.
Qed.

(** C10, amended. Two inventories in which every entry the two scans look
    at, up to the first ENPOWER entry and up to the first ENCHARGE entry, is
    an object, whose first ENPOWER entries have the same first device
    ([devices[0]]) and whose first ENCHARGE entries are the same, are reduced
    to the same outcome, whatever other entries they hold, further ENPOWER
    and ENCHARGE entries included.  An entry that is no object and comes
    before the first ENPOWER entry makes the reducer raise [AttributeError];
    so does one that comes before the first ENCHARGE entry, once the grid
    status is read. *)
Theorem reduce_depends_on_first_entries :
  (forall items1 items2,
      forallb is_object (scanned "ENPOWER" items1) = true ->
      forallb is_object (scanned "ENCHARGE" items1) = true ->
      forallb is_object (scanned "ENPOWER" items2) = true ->
      forallb is_object (scanned "ENCHARGE" items2) = true ->
      option_map first_device_lookup (first_entry "ENPOWER" items1)
      = option_map first_device_lookup (first_entry "ENPOWER" items2) ->
      first_entry "ENCHARGE" items1 = first_entry "ENCHARGE" items2 ->
      process_ensemble_inventory (JArray items1)
      = process_ensemble_inventory (JArray items2))
  /\ (forall items,
         forallb is_object (scanned "ENPOWER" items) = false ->
         process_ensemble_inventory (JArray items) = Raise AttributeError)
  /\ (forall items g,
         grid_status_of items = Ok g ->
         forallb is_object (scanned "ENCHARGE" items) = false ->
         process_ensemble_inventory (JArray items) = Raise AttributeError).
Proof.
  split; [|split].
  - intros items1 items2 Hp1 Hc1 Hp2 Hc2 Hp Hc.
    rewrite !process_array.
    rewrite (grid_status_of_scanned _ Hp1), (grid_status_of_scanned _ Hp2).
    rewrite (battery_levels_of_scanned _ Hc1), (battery_levels_of_scanned _ Hc2).
    rewrite Hp, Hc. reflexivity.
  - intros items H. rewrite process_array. unfold grid_status_of.
    now rewrite (next_of_type_non_object _ _ H).
  - intros items g Hg H. rewrite process_array, Hg. simpl.
    unfold battery_levels_of. now rewrite (next_of_type_non_object _ _ H).
Qed.

Lemma reduce_depends_on_first_entries_witness :
  process_ensemble_inventory (JArray [closed_enpower; sample_encharge; JInt 1])
  = process_ensemble_inventory (JArray crowded_inventory).
Proof.
  apply (proj1 reduce_depends_on_first_entries); reflexivity.
Defined.

(** ** Token validity *)

(** A timestamp that converts to an integer other than 0 counts as present. *)
Lemma py_int_truthy x n : py_int x = Ok n -> n <> 0 -> py_truthy x = true.
Proof.
  destruct x as [|b|k|f|s|items|kvs]; simpl; try discriminate.
  - destruct b; [reflexivity|]. intros [= <-]. congruence.
  - intros [= ->] H. apply negb_true_iff, Z.eqb_neq. exact H.
  - destruct f; simpl; try discriminate; try reflexivity.
    intros [= <-]. congruence.
  - destruct s; [discriminate | reflexivity].
Qed.

Lemma fromtimestamp_at_offset lt off n :
  at_offset lt off n -> datetime.fromtimestamp lt n = Ok ((n + off) * 1000000).
Proof.
  unfold at_offset, datetime.fromtimestamp, datetime.local,
    datetime.max_fold_seconds, datetime.min_timestamp, datetime.max_timestamp.
  change (2 ^ 63) with 9223372036854775808.
  intros (Hn & Hl & Hp & Hlo & Hhi). rewrite Hl, Hp.
  repeat (match goal with
          | |- context [?a <? ?b] => destruct (Z.ltb_spec a b); try lia
          | |- context [?a <=? ?b] => destruct (Z.leb_spec a b); try lia
          end; cbn [orb rbind]).
  reflexivity.
Qed.

Lemma start_at_offset lt off tk g :
  py_int (generation_time tk) = Ok g -> at_offset lt off g ->
  start lt tk = Ok ((g + off) * 1000000).
Proof.
  intros Hg Rg. unfold start. rewrite Hg. simpl.
  now rewrite (fromtimestamp_at_offset _ _ _ Rg).
Qed.

Lemma end_at_offset lt off tk e :
  py_int (expires_at tk) = Ok e -> at_offset lt off e ->
  end_ lt tk = Ok ((e + off) * 1000000).
Proof.
  intros He Re. unfold end_. rewrite He. simpl.
  now rewrite (fromtimestamp_at_offset _ _ _ Re).
Qed.

Ltac offset_facts :=
  unfold at_offset, datetime.min_timestamp, datetime.max_timestamp;
  repeat split;
  first [ reflexivity | vm_compute; first [reflexivity | discriminate] ].

(** C4, as stated, fails.  Both timestamps of [endless_token] convert to
    integers and the time lies between them, yet [is_valid] raises: the end
    is past the year 9999, [datetime] cannot represent it, and the code turns
    that into an exception of its own.  And where it returns, it compares
    readings of the local clock, not instants: in the zone [eastern], forty
    minutes after [autumn_token] expired, the clocks have gone back an hour
    and show a time before the expiry, and [is_valid] returns true. *)
Lemma is_valid_differs_from_window :
  (py_truthy (token endless_token) = true
   /\ py_int (generation_time endless_token) = Ok 1700000000
   /\ py_int (expires_at endless_token) = Ok 999999999999
   /\ 1700000000 * 1000000 <= 1800000000 * 1000000 <= 999999999999 * 1000000
   /\ is_valid utc endless_token (reading 0 (1800000000 * 1000000))
      = Raise (Exception "Error converting `expires_at` to datetime."))
  /\ (py_truthy (token autumn_token) = true
      /\ py_int (generation_time autumn_token) = Ok 1690000000
      /\ py_int (expires_at autumn_token) = Ok 1699162200
      /\ eastern 1699164600 = Some (1699164600 + -18000)
      /\ ~ 1699164600 * 1000000 <= 1699162200 * 1000000
      /\ is_valid eastern autumn_token (reading (-18000) (1699164600 * 1000000))
         = Ok true).
Proof.
  split.
  - repeat split; try (vm_compute; reflexivity); lia.
  - repeat split; try (vm_compute; reflexivity). lia.
Qed.

(** C4, amended. Take a token whose [generation_time] and [expires_at]
    convert to integers [g] and [e] other than 0, and a zone that stands at
    a fixed offset from UTC around [g] and around [e] (at the timestamp and a
    day before it), the readings within the years 1 to 9999.  Then
    [is_valid] does not raise, and it returns true exactly when the reading
    of the clock lies between the local readings of [g] and [e], both ends
    included.  When the zone stands at the same offset at [g], at [e] and
    now, that is exactly when [g <= now <= e]. *)
Theorem is_valid_iff_in_window :
  forall lt off_g off_e tk g e clock,
    py_int (generation_time tk) = Ok g -> g <> 0 ->
    py_int (expires_at tk) = Ok e -> e <> 0 ->
    at_offset lt off_g g ->
    at_offset lt off_e e ->
    exists b,
      is_valid lt tk clock = Ok b
      /\ (b = true <-> reading off_g (g * 1000000) <= clock
                       <= reading off_e (e * 1000000))
      /\ (forall now,
             off_g = off_e -> clock = reading off_g now ->
             (b = true <-> g * 1000000 <= now <= e * 1000000)).
Proof.
  intros lt off_g off_e tk g e clock Hg Ng He Ne Rg Re.
  unfold is_valid.
  rewrite (py_int_truthy _ _ Hg Ng), (py_int_truthy _ _ He Ne). simpl.
  rewrite (start_at_offset _ _ _ _ Hg Rg), (end_at_offset _ _ _ _ He Re). simpl.
  unfold reading.
  destruct ((g + off_g) * 1000000 <=? clock) eqn:Hs.
  - apply Z.leb_le in Hs. eexists. split; [reflexivity|]. split.
    + rewrite Z.leb_le. lia.
    + intros now <- ->. rewrite Z.leb_le. lia.
  - apply Z.leb_gt in Hs. exists false. split; [reflexivity|]. split.
    + split; [discriminate | lia].
    + intros now <- ->. split; [discriminate | lia].
Qed.

Lemma is_valid_iff_in_window_witness :
  exists b,
    is_valid utc year_token (reading 0 (1731536000 * 1000000)) = Ok b
    /\ (b = true <-> 1700000000 * 1000000 <= 1731536000 * 1000000
                     <= 1731536000 * 1000000).
Proof.
  destruct (is_valid_iff_in_window utc 0 0 year_token 1700000000 1731536000
              (reading 0 (1731536000 * 1000000)))
    as (b & Hb & _ & Hnow).
  - vm_compute. reflexivity.
  - discriminate.
  - reflexivity.
  - discriminate.
  - offset_facts.
  - offset_facts.
  - exists b. split; [exact Hb|]. apply Hnow; reflexivity.
Defined.

(** ** The gateway session *)

Ltac run :=
  unfold bind, ret, raise, lift, get_self, set_self, log, datetime_now,
    new_session, send, set_token, set_envoy_session; simpl.

Lemma requests_in_app t1 t2 :
  requests_in (t1 ++ t2) = (requests_in t1 + requests_in t2)%nat.
Proof. unfold requests_in. now rewrite filter_app, length_app. Qed.

Lemma requests_in_request t r : requests_in (t ++ [EvRequest r]) = S (requests_in t).
Proof. rewrite requests_in_app. unfold requests_in. simpl. lia. Qed.

(** A second call finds the session the first one cached and does nothing. *)
Lemma create_envoy_session_cached m session :
  _envoy_session (self m) = Some session ->
  create_envoy_session m = (Ok session, m).
Proof. intros H. unfold create_envoy_session. run. now rewrite H. Qed.

Lemma create_envoy_session_fresh m c tk :
  _config (self m) = Some c ->
  _token (self m) = Some tk ->
  _envoy_session (self m) = None ->
  let m' := snd (create_envoy_session m) in
  requests_in (trace m') = S (requests_in (trace m))
  /\ forall session, fst (create_envoy_session m) = Ok session ->
                     _envoy_session (self m') = Some session.
Proof.
  intros Hc Ht Hs. unfold create_envoy_session. run. rewrite Hs, Hc, Ht. run.
  destruct (network m (trace m) _); simpl.
  - split; [apply requests_in_request | discriminate].
  - split; [apply requests_in_request|]. now intros session [= ->].
Qed.

(** C8, as stated, fails: the second call is a cache hit only if the first
    one got an answer.  With the gateway out of reach the first call raises
    after sending its check and caches nothing, and a second call, made once
    the failure is dealt with, sends the check again: two network calls for
    a token that is valid throughout. *)
Lemma session_check_repeated_after_failure :
  let m1 := snd (create_envoy_session offline_machine) in
  let m2 := snd (create_envoy_session m1) in
  _token (self offline_machine) = Some old_token
  /\ is_valid (localtime offline_machine) old_token (clock offline_machine)
     = Ok true
  /\ fst (create_envoy_session offline_machine) = Raise RequestException
  /\ _envoy_session (self m1) = None
  /\ requests_in (trace m1) = 1%nat
  /\ fst (create_envoy_session m1) = Raise RequestException
  /\ requests_in (trace m2) = 2%nat.
Proof. repeat split; vm_compute; reflexivity. Qed.

(** C8, amended. On an [Enphase] object that holds a configuration and a
    token and no gateway session yet, when the gateway answers the check of
    the first call (with whatever status), two calls of
    [create_envoy_session] in succession send exactly one request: the first
    call sends the check, caches the new session and returns it, the second
    returns that same session and leaves everything as it was.  When the
    gateway is out of reach, the first call raises after its one request and
    caches nothing.  This holds for every token, the still-valid ones among
    them. *)
Theorem second_session_call_is_cache_hit :
  forall m c tk,
    _config (self m) = Some c ->
    _token (self m) = Some tk ->
    _envoy_session (self m) = None ->
    (forall st body,
        network m (trace m) (check_request m c tk) = response st body ->
        exists m1,
          create_envoy_session m = (Ok (sessions m), m1)
          /\ trace m1 = trace m ++ [EvRequest (check_request m c tk)]
          /\ requests_in (trace m1) = S (requests_in (trace m))
          /\ _envoy_session (self m1) = Some (sessions m)
          /\ create_envoy_session m1 = (Ok (sessions m), m1)
          /\ create_envoy_session_twice m = (Ok (sessions m, sessions m), m1))
    /\ (network m (trace m) (check_request m c tk) = unreachable ->
        exists m1,
          create_envoy_session m = (Raise RequestException, m1)
          /\ trace m1 = trace m ++ [EvRequest (check_request m c tk)]
          /\ _envoy_session (self m1) = None
          /\ create_envoy_session_twice m = (Raise RequestException, m1)).
Proof.
  intros m c tk Hc Ht Hs. split.
  - intros st body Hnet.
    assert (E : exists m1,
               create_envoy_session m = (Ok (sessions m), m1)
               /\ trace m1 = trace m ++ [EvRequest (check_request m c tk)]
               /\ _envoy_session (self m1) = Some (sessions m)).
    { unfold create_envoy_session. run. rewrite Hs, Hc, Ht. run.
      unfold check_request in Hnet. rewrite Hnet. simpl.
      eexists. split; [reflexivity|]. simpl. auto. }
    destruct E as (m1 & E1 & Htrace & Hcached).
    pose proof (create_envoy_session_cached _ _ Hcached) as E2.
    exists m1. repeat split; try assumption.
    + rewrite Htrace. apply requests_in_request.
    + unfold create_envoy_session_twice, bind. rewrite E1, E2. reflexivity.
  - intros Hnet.
    assert (E : exists m1,
               create_envoy_session m = (Raise RequestException, m1)
               /\ trace m1 = trace m ++ [EvRequest (check_request m c tk)]
               /\ _envoy_session (self m1) = None).
    { unfold create_envoy_session. run. rewrite Hs, Hc, Ht. run.
      unfold check_request in Hnet. rewrite Hnet. simpl.
      eexists. split; [reflexivity|]. simpl. auto. }
    destruct E as (m1 & E1 & Htrace & Hnone).
    exists m1. repeat split; try assumption.
    unfold create_envoy_session_twice, bind. rewrite E1. reflexivity.
Qed.

Lemma second_session_call_is_cache_hit_witness :
  let m := loaded old_token new_token 1500 sample_inventory in
  exists m1,
    create_envoy_session m = (Ok 0%nat, m1)
    /\ trace m1 = [EvRequest (check_request m home_config old_token)]
    /\ requests_in (trace m1) = 1%nat
    /\ _envoy_session (self m1) = Some 0%nat
    /\ create_envoy_session m1 = (Ok 0%nat, m1)
    /\ create_envoy_session_twice m = (Ok (0%nat, 0%nat), m1).
Proof.
  exact (proj1 (second_session_call_is_cache_hit
                  (loaded old_token new_token 1500 sample_inventory)
                  home_config old_token eq_refl eq_refl eq_refl)
           200 (not_json "") eq_refl).
Defined.

(** ** The credential store *)

Lemma EnphaseConfig_of_dict c : EnphaseConfig_of (config_dict c) = Ok c.
Proof. destruct c. reflexivity. Qed.

Lemma EnphaseToken_of_dict tk : EnphaseToken_of (token_dict tk) = Ok tk.
Proof. destruct tk. reflexivity. Qed.

(** C6, as stated, fails: an expired token does not survive [save] then
    [load]; [load] replaces it with the token the cloud issues. *)
Lemma load_replaces_expired_token :
  let m' := snd (save_then_load false expired_machine) in
  _config (self expired_machine) = Some home_config
  /\ _token (self expired_machine) = Some old_token
  /\ fst (save_then_load false expired_machine) = Ok tt
  /\ _token (self m') = Some new_token
  /\ new_token <> old_token.
Proof. repeat split; try (vm_compute; reflexivity). discriminate. Qed.

Lemma save_Ok m c tk :
  _config (self m) = Some c ->
  _token (self m) = Some tk ->
  save m
  = (Ok tt,
     with_trace (trace m ++ [EvWrite (not_json ""); EvWrite (saved_text c tk)])
       (with_config_file (Some (saved_text c tk)) m)).
Proof.
  intros Hc Ht. unfold save, write_config_file. run. rewrite Hc, Ht.
  unfold with_trace, with_config_file. simpl. now rewrite <- app_assoc.
Qed.

(** [load] on a file that holds a token valid at the time: the object takes
    the stored configuration and token and nothing else happens. *)
Lemma load_valid m c tk :
  config_file m = Some (saved_text c tk) ->
  is_valid (localtime m) tk (clock m) = Ok true ->
  load m
  = (Ok tt,
     with_self {| envoy_ssl_verify := envoy_ssl_verify (self m);
                  _config := Some c; _token := Some tk;
                  _envoy_session := _envoy_session (self m) |}
       (with_trace (trace m ++ [EvRead]) m)).
Proof.
  intros Hf Hv. destruct c, tk.
  unfold load, token_is_valid, set_config, read_config_file,
    bind, ret, raise, lift, get_self, set_self, datetime_now, set_token.
  rewrite Hf. cbn -[is_valid]. rewrite Hv. reflexivity.
Qed.

(** C6, amended. For every configuration and every token that is valid when
    [load] runs, saving them and loading the file into a new [Enphase] object
    succeeds and gives that object a configuration and a token equal in all
    fields to the ones saved. *)
Theorem save_load_roundtrip :
  forall m c tk verify,
    _config (self m) = Some c ->
    _token (self m) = Some tk ->
    is_valid (localtime m) tk (clock m) = Ok true ->
    let m' := snd (save_then_load verify m) in
    fst (save_then_load verify m) = Ok tt
    /\ _config (self m') = Some c
    /\ _token (self m') = Some tk.
Proof.
  intros m c tk verify Hc Ht Hv.
  unfold save_then_load, bind. rewrite (save_Ok m c tk Hc Ht).
  unfold set_self. rewrite (load_valid _ c tk); [|reflexivity|exact Hv].
  simpl. auto.
Qed.

Lemma save_load_roundtrip_witness :
  let m := loaded old_token new_token 1500 sample_inventory in
  fst (save_then_load false m) = Ok tt
  /\ _config (self (snd (save_then_load false m))) = Some home_config
  /\ _token (self (snd (save_then_load false m))) = Some old_token.
Proof.
  apply (save_load_roundtrip (loaded old_token new_token 1500 sample_inventory)
           home_config old_token false); reflexivity.
Defined.




(** ** The poll cycle *)

Section Preservation.
Variable R : Machine -> Machine -> Prop.
Hypothesis R_refl : forall m, R m m.
Hypothesis R_trans : forall m1 m2 m3, R m1 m2 -> R m2 m3 -> R m1 m3.

Lemma preserves_ret {A} (a : A) : preserves R (ret a).
Proof. intros m. apply R_refl. Qed.

Lemma preserves_raise {A} e : preserves R (@raise A e).
Proof. intros m. apply R_refl. Qed.

Lemma preserves_lift {A} (r : result A) : preserves R (lift r).
Proof. intros m. apply R_refl. Qed.

Lemma preserves_get_self : preserves R get_self.
Proof. intros m. apply R_refl. Qed.

Lemma preserves_datetime_now : preserves R datetime_now.
Proof. intros m. apply R_refl. Qed.

Lemma preserves_bind {A B} (c : M A) (k : A -> M B) :
  preserves R c -> (forall a, preserves R (k a)) -> preserves R (bind c k).
Proof.
  intros Hc Hk m. unfold bind. specialize (Hc m).
  destruct (c m) as [[a|e] m']; simpl in *; [|assumption].
  eapply R_trans; [eassumption | apply Hk].
Qed.
End Preservation.

Ltac preserve_with Hrefl Htrans base :=
  repeat first
    [ base
    | apply (preserves_ret _ Hrefl)
    | apply (preserves_raise _ Hrefl)
    | apply (preserves_lift _ Hrefl)
    | apply (preserves_get_self _ Hrefl)
    | apply (preserves_datetime_now _ Hrefl)
    | apply (preserves_bind _ Htrans); [ | intros]
    | match goal with
      | |- preserves _ (match ?x with _ => _ end) => destruct x
      | |- preserves _ (if ?x then _ else _) => destruct x
      end ].

Lemma no_login_refl m : no_login m m.
Proof. split; [exists []; now rewrite app_nil_r | reflexivity]. Qed.

Lemma no_login_trans m1 m2 m3 : no_login m1 m2 -> no_login m2 m3 -> no_login m1 m3.
Proof.
  intros [(e1 & H1 & L1) T1] [(e2 & H2 & L2) T2]. split; [|congruence].
  exists (e1 ++ e2). rewrite H2, H1, app_assoc, existsb_app, L1, L2. auto.
Qed.

Lemma no_login_event m m' e :
  trace m' = trace m ++ [e] -> is_login e = false ->
  _token (self m') = _token (self m) -> no_login m m'.
Proof.
  intros Ht He Hk. split; [|assumption]. exists [e]. simpl. now rewrite He.
Qed.

Lemma no_login_new_session : preserves no_login new_session.
Proof. intros m. simpl. split; [exists []; now rewrite app_nil_r | reflexivity]. Qed.

Lemma no_login_send r :
  is_login (EvRequest r) = false -> preserves no_login (send r).
Proof.
  intros Hr m. unfold send.
  destruct (network m (trace m) r); simpl; now apply (no_login_event _ _ (EvRequest r)).
Qed.

Lemma no_login_log e : is_login e = false -> preserves no_login (log e).
Proof. intros He m. simpl. now apply (no_login_event _ _ e). Qed.

Lemma no_login_set_envoy_session session :
  preserves no_login (set_envoy_session session).
Proof. intros m. simpl. split; [exists []; now rewrite app_nil_r | reflexivity]. Qed.

Ltac no_login_base :=
  first [ apply no_login_new_session
        | apply no_login_send; reflexivity
        | apply no_login_log; reflexivity
        | apply no_login_set_envoy_session ].

Lemma no_login_poll_enphase : preserves no_login poll_enphase.
Proof.
  unfold poll_enphase, ivp_ensemble_inventory, create_envoy_session.
  preserve_with no_login_refl no_login_trans no_login_base.
Qed.

(** C1, as stated, fails: with a token that expired a second ago the cycle
    runs to its end, fetches the inventory from the gateway and never logs
    in.  The program reaches such a cycle by itself: started five seconds
    before the token expires, it polls the gateway at rounds ten and twenty,
    after the expiry, and no login is ever made. *)
Lemma poll_with_expired_token_does_not_login :
  let m' := snd (poll_enphase expired_machine) in
  let run := main 30 (installed old_token new_token 1995 sample_inventory) in
  _token (self expired_machine) = Some old_token
  /\ is_valid (localtime expired_machine) old_token (clock expired_machine)
     = Ok false
  /\ fst (poll_enphase expired_machine) = Ok tt
  /\ existsb is_fetch (trace m') = true
  /\ existsb is_login (trace m') = false
  /\ fst run = Ok tt
  /\ fetches_in (trace (snd run)) = 2%nat
  /\ existsb is_login (trace (snd run)) = false
  /\ _token (self (snd run)) = Some old_token
  /\ is_valid (localtime (snd run)) old_token (clock (snd run)) = Ok false.
Proof. repeat split; vm_compute; reflexivity. Qed.

(** When the token read from the file is not valid, [load] returns only
    after it has logged in and saved: a POST to the login URL, a GET of the
    token URL, then the two writes of [save], and no request to the gateway. *)
Lemma load_invalid_logs_in m tk :
  stored_token m = Ok tk ->
  is_valid (localtime m) tk (clock m) = Ok false ->
  fst (load m) = Ok tt ->
  exists r1 r2 w1 w2,
    trace (snd (load m))
    = trace m ++ [EvRead; EvRequest r1; EvRequest r2; EvWrite w1; EvWrite w2]
    /\ req_verb r1 = POST /\ req_url r1 = login_url
    /\ req_verb r2 = GET /\ (exists sn, req_url r2 = token_url sn).
Proof.
  unfold stored_token, load, token_is_valid, set_config, set_token,
    read_config_file, get_new_token, save, write_config_file, send, new_session,
    bind, lift, ret, raise, get_self, set_self, datetime_now.
  destruct (config_file m) as [t|]; [|discriminate].
  destruct (json_loads t) as [d|e]; [|discriminate].
  destruct d as [|b|n|f|s|items|kvs]; try discriminate.
  cbn -[is_valid EnphaseConfig_of EnphaseToken_of].
  intros Hst. rewrite Hst.
  destruct (dict_get kvs "config") as [|b|n|f|s|items|ckvs];
    cbn -[is_valid EnphaseConfig_of EnphaseToken_of]; try discriminate.
  destruct (EnphaseConfig_of (JObject ckvs)) as [c|e];
    cbn -[is_valid EnphaseConfig_of EnphaseToken_of]; [|discriminate].
  intros Hv. rewrite Hv.
  cbn -[is_valid EnphaseConfig_of EnphaseToken_of].
  destruct (negb (py_truthy (username c)) && negb (py_truthy (password c))
            && negb (py_truthy (serial c)));
    cbn -[is_valid EnphaseConfig_of EnphaseToken_of]; [discriminate|].
  destruct (network m _ _) as [|st1 body1];
    cbn -[is_valid EnphaseConfig_of EnphaseToken_of]; [discriminate|].
  destruct (network m _ _) as [|st2 body2];
    cbn -[is_valid EnphaseConfig_of EnphaseToken_of]; [discriminate|].
  destruct (json_loads body2) as [d2|e];
    cbn -[is_valid EnphaseConfig_of EnphaseToken_of]; [|discriminate].
  destruct (EnphaseToken_of d2) as [tk2|e];
    cbn -[is_valid EnphaseConfig_of EnphaseToken_of]; [|discriminate].
  intros _. rewrite <- !app_assoc. simpl.
  do 4 eexists. split; [reflexivity|]. simpl. eauto.
Qed.

(** C1, amended. A poll cycle never checks the token and never logs in: every
    event it adds is something other than a login, and the token it leaves is
    the one it found, expired or not.  The check is made once, by [load] at
    startup: when the token read from the file is not valid then, [load]
    returns only after a POST to the login URL and a GET of the token URL,
    without any request to the gateway. *)
Theorem token_renewed_by_load_not_by_poll :
  (forall m,
      (exists evs, trace (snd (poll_enphase m)) = trace m ++ evs
                   /\ existsb is_login evs = false)
      /\ _token (self (snd (poll_enphase m))) = _token (self m))
  /\ (forall m tk,
         stored_token m = Ok tk ->
         is_valid (localtime m) tk (clock m) = Ok false ->
         fst (load m) = Ok tt ->
         exists r1 r2 w1 w2,
           trace (snd (load m))
           = trace m ++ [EvRead; EvRequest r1; EvRequest r2; EvWrite w1; EvWrite w2]
           /\ req_verb r1 = POST /\ req_url r1 = login_url
           /\ req_verb r2 = GET /\ (exists sn, req_url r2 = token_url sn)).
Proof.
  split.
  - intros m. exact (no_login_poll_enphase m).
  - exact load_invalid_logs_in.
Qed.

Lemma token_renewed_by_load_not_by_poll_witness :
  exists r1 r2 w1 w2,
    trace (snd (load expired_machine))
    = trace expired_machine
      ++ [EvRead; EvRequest r1; EvRequest r2; EvWrite w1; EvWrite w2]
    /\ req_verb r1 = POST /\ req_url r1 = login_url
    /\ req_verb r2 = GET /\ (exists sn, req_url r2 = token_url sn).
Proof.
  apply (proj2 token_renewed_by_load_not_by_poll expired_machine old_token).
  - reflexivity.
  - reflexivity.
  - vm_compute. reflexivity.
Defined.

(** ** Failure of a cycle *)

Lemma no_breakers_refl m : no_breakers m m.
Proof. reflexivity. Qed.

Lemma no_breakers_trans m1 m2 m3 :
  no_breakers m1 m2 -> no_breakers m2 m3 -> no_breakers m1 m3.
Proof. unfold no_breakers. congruence. Qed.

Lemma breakers_in_other t e :
  is_breakers e = false -> breakers_in (t ++ [e]) = breakers_in t.
Proof.
  intros He. unfold breakers_in. rewrite filter_app. simpl. rewrite He.
  apply app_nil_r.
Qed.

Lemma no_breakers_send r : preserves no_breakers (send r).
Proof.
  intros m. unfold send, no_breakers.
  destruct (network m (trace m) r); simpl; now apply breakers_in_other.
Qed.

Lemma no_breakers_new_session : preserves no_breakers new_session.
Proof. intros m. reflexivity. Qed.

Lemma no_breakers_set_envoy_session session :
  preserves no_breakers (set_envoy_session session).
Proof. intros m. reflexivity. Qed.

Ltac no_breakers_base :=
  first [ apply no_breakers_new_session
        | apply no_breakers_send
        | apply no_breakers_set_envoy_session ].

Lemma no_breakers_ivp_ensemble_inventory :
  preserves no_breakers ivp_ensemble_inventory.
Proof.
  unfold ivp_ensemble_inventory, create_envoy_session.
  preserve_with no_breakers_refl no_breakers_trans no_breakers_base.
Qed.

(** A cycle that raises has not reached the breaker action. *)
Lemma poll_enphase_raises m e m' :
  poll_enphase m = (Raise e, m') ->
  breakers_in (trace m') = breakers_in (trace m).
Proof.
  pose proof (no_breakers_ivp_ensemble_inventory m) as Hivp.
  unfold poll_enphase, bind, lift, log.
  destruct (ivp_ensemble_inventory m) as [[raw_data|e1] m1]; simpl in Hivp.
  - destruct (process_ensemble_inventory raw_data) as [processed|e2].
    + destruct (grid_status processed); discriminate.
    + intros [= _ <-]. exact Hivp.
  - intros [= _ <-]. exact Hivp.
Qed.

(** Whatever a due job raises leaves [run_pending] and ends the loop. *)
Lemma main_loop_raises m e m' j fuel :
  poll_enphase m = (Raise e, m') ->
  job m = Some j ->
  next_run j <= clock m ->
  main_loop (S fuel) m = (Raise e, m').
Proof.
  intros Hp Hj Hdue. simpl. unfold bind at 1. unfold schedule.run_pending.
  rewrite Hj. apply Z.leb_le in Hdue. rewrite Hdue.
  unfold bind at 1. rewrite Hp. reflexivity.
Qed.

(** C2, as stated, fails: nothing catches the error of a cycle.  Started on
    a valid token and run for thirty rounds, the program polls a healthy
    gateway at the ticks of rounds ten and twenty and is still running; with
    a gateway that serves an empty inventory, the [StopIteration] of the
    reducer leaves [poll_enphase] at the first tick and ends the program, and
    the tick of round twenty never runs. *)
Lemma failed_cycle_stops_the_scheduler :
  let healthy := main 30 (installed old_token new_token 1500 sample_inventory) in
  let failing := main 30 (installed old_token new_token 1500 (JArray [])) in
  fst healthy = Ok tt
  /\ fetches_in (trace (snd healthy)) = 2%nat
  /\ fst (poll_enphase failing_machine) = Raise StopIteration
  /\ fst failing = Raise StopIteration
  /\ fetches_in (trace (snd failing)) = 1%nat.
Proof. repeat split; vm_compute; reflexivity. Qed.

(** C2, amended. In a cycle in which the session, the fetch or the reduction
    raises, the breaker action is not invoked; the error is not caught: it
    leaves [poll_enphase], and at a tick where the job is due it leaves
    [run_pending] and ends the main loop with that error, so no later tick
    runs. *)
Theorem failed_cycle_skips_breakers_and_ends_loop :
  forall m e m',
    poll_enphase m = (Raise e, m') ->
    breakers_in (trace m') = breakers_in (trace m)
    /\ forall j fuel,
         job m = Some j ->
         next_run j <= clock m ->
         main_loop (S fuel) m = (Raise e, m').
Proof.
  intros m e m' Hp. split.
  - exact (poll_enphase_raises m e m' Hp).
  - intros j fuel. exact (main_loop_raises m e m' j fuel Hp).
Qed.

Lemma failed_cycle_skips_breakers_and_ends_loop_witness :
  breakers_in (trace (snd (poll_enphase failing_machine)))
  = breakers_in (trace failing_machine)
  /\ main_loop 1 failing_machine
     = (Raise StopIteration, snd (poll_enphase failing_machine)).
Proof.
  destruct (failed_cycle_skips_breakers_and_ends_loop
              failing_machine StopIteration (snd (poll_enphase failing_machine)))
    as [Hb Hloop]; [vm_compute; reflexivity|].
  split; [exact Hb|].
  apply (Hloop {| interval := 10; next_run := 1500 * 1000000 |} 0%nat).
  - reflexivity.
  - simpl. lia.
Defined.


(** * Further properties of the code *)

(** ** The reducer: when it returns, and the errors of single devices *)

(** X2. The reducer returns a summary for every inventory of objects in
    which the first ENPOWER entry has an object as first device and the
    first ENCHARGE entry has a non-empty list of devices whose [percentFull]
    values convert to integers between 0 and 100: the status is read off
    [mains_oper_state] and the levels are those integers, in order. *)
Theorem reduce_returns_on_percentages :
  forall items enpower device encharge devs levels,
    forallb is_object items = true ->
    first_entry "ENPOWER" items = Some enpower ->
    first_device enpower = Some device ->
    is_object device = true ->
    first_entry "ENCHARGE" items = Some encharge ->
    field encharge "devices" = JArray devs ->
    devs <> [] ->
    Forall2 (fun d n => device_level d = Ok n) devs levels ->
    Forall percent levels ->
    exists avg,
      process_ensemble_inventory (JArray items)
      = Ok {| grid_status :=
                if py_eq_str (field device "mains_oper_state") "closed"
                then UP else DOWN;
              battery_levels := levels;
              battery_level := avg |}.
Proof.
  intros items enpower device encharge devs levels Ho Hp Hd Hdo Hc Hds Hne Hl Hr.
  assert (Hlne : levels <> [])
    by (intros ->; inversion Hl; subst; congruence).
  destruct (py_truediv_percent levels Hlne Hr) as [avg Havg].
  exists avg. eapply process_returns; eauto using scanned_objects.
Qed.

Lemma reduce_returns_on_percentages_witness :
  exists avg,
    process_ensemble_inventory (JArray crowded_inventory)
    = Ok {| grid_status := UP; battery_levels := [80; 60]; battery_level := avg |}.
Proof.
  apply (reduce_returns_on_percentages crowded_inventory
           (entry "ENPOWER" [JObject [("mains_oper_state", JString "closed")];
                             JObject [("mains_oper_state", JString "open")]])
           (JObject [("mains_oper_state", JString "closed")])
           sample_encharge
           [JObject [("percentFull", JString "80")];
            JObject [("percentFull", JString "60")]]
           [80; 60]); try reflexivity.
  - discriminate.
  - repeat constructor.
  - repeat constructor; unfold percent; lia.
Defined.

Lemma result_map_first_error {A B} (f : A -> result B) pre a post bs e :
  Forall2 (fun x b => f x = Ok b) pre bs ->
  f a = Raise e ->
  result_map f (pre ++ a :: post) = Raise e.
Proof.
  intros Hpre Ha. induction Hpre as [|x b pre bs Hx _ IH]; simpl.
  - now rewrite Ha.
  - rewrite Hx. simpl. now rewrite IH.
Qed.

(** X3. Once the grid status is read, the first device of the ENCHARGE entry
    whose [percentFull] cannot be converted decides the outcome: the reducer
    raises what that conversion raises, whatever the devices after it hold.
    A device without [percentFull] raises [TypeError], a device that is not
    an object raises [AttributeError]. *)
Theorem first_bad_device_fails_reduce :
  (forall items g encharge pre d post levels e,
      forallb is_object items = true ->
      grid_status_of items = Ok g ->
      first_entry "ENCHARGE" items = Some encharge ->
      field encharge "devices" = JArray (pre ++ d :: post) ->
      Forall2 (fun x n => device_level x = Ok n) pre levels ->
      device_level d = Raise e ->
      process_ensemble_inventory (JArray items) = Raise e)
  /\ (forall d, is_object d = true -> field d "percentFull" = JNull ->
                device_level d = Raise TypeError)
  /\ (forall d, is_object d = false -> device_level d = Raise AttributeError).
Proof.
  split; [|split].
  - intros items g encharge pre d post levels e Ho Hg Hc Hd Hpre He.
    rewrite process_array, Hg, (battery_levels_of_objects _ Ho), Hc. simpl.
    rewrite Hd. simpl.
    now rewrite (result_map_first_error _ _ _ _ _ _ Hpre He).
  - intros d Ho Hf. unfold device_level. rewrite (py_get_object _ _ Ho). simpl.
    now rewrite Hf.
  - intros d Ho. destruct d; try reflexivity. discriminate.
Qed.

Lemma first_bad_device_fails_reduce_witness :
  process_ensemble_inventory
    (JArray [ closed_enpower;
              entry "ENCHARGE" [JObject [("percentFull", JString "80")];
                                JObject [("serial", JString "b2")];
                                JString "b3"] ])
  = Raise TypeError.
Proof.
  destruct first_bad_device_fails_reduce as (Hfirst & Hmissing & _).
  apply (Hfirst _ UP
           (entry "ENCHARGE" [JObject [("percentFull", JString "80")];
                              JObject [("serial", JString "b2")];
                              JString "b3"])
           [JObject [("percentFull", JString "80")]]
           (JObject [("serial", JString "b2")])
           [JString "b3"] [80]);
    [ reflexivity | reflexivity | reflexivity | reflexivity
    | repeat constructor
    | apply Hmissing; reflexivity ].
Defined.

(** X4. With an ENPOWER entry found among objects, the reducer stops at its
    device list before it looks for batteries: an empty list raises
    [IndexError], a missing [devices] field raises [TypeError], and a first
    device that is not an object raises [AttributeError]. *)
Theorem enpower_without_device_fails_reduce :
  forall items enpower,
    forallb is_object items = true ->
    first_entry "ENPOWER" items = Some enpower ->
    (field enpower "devices" = JArray [] ->
     process_ensemble_inventory (JArray items) = Raise IndexError)
    /\ (field enpower "devices" = JNull ->
        process_ensemble_inventory (JArray items) = Raise TypeError)
    /\ (forall d rest,
           field enpower "devices" = JArray (d :: rest) ->
           is_object d = false ->
           process_ensemble_inventory (JArray items) = Raise AttributeError).
Proof.
  intros items enpower Ho Hp.
  rewrite process_array, (grid_status_of_objects _ Ho), Hp.
  unfold first_device_lookup. simpl.
  split; [|split].
  - now intros ->.
  - now intros ->.
  - intros d rest -> Hd. simpl. destruct d; try reflexivity. discriminate.
Qed.

Lemma enpower_without_device_fails_reduce_witness :
  process_ensemble_inventory (JArray [entry "ENPOWER" []; sample_encharge])
  = Raise IndexError.
Proof.
  apply (enpower_without_device_fails_reduce
           [entry "ENPOWER" []; sample_encharge] (entry "ENPOWER" []));
    reflexivity.
Defined.

(** ** Tokens: [is_valid] and [validity] *)

(** X5. Before its start, the naive time [generation_time] converts to, a
    token is reported invalid without [expires_at] being converted:
    [is_valid] returns false there even when [expires_at] holds something
    that is no timestamp at all. *)
Theorem is_valid_before_start_ignores_end :
  forall lt tk now s,
    py_truthy (generation_time tk) = true ->
    py_truthy (expires_at tk) = true ->
    start lt tk = Ok s ->
    now < s ->
    is_valid lt tk now = Ok false.
Proof.
  intros lt tk now s Tg Te Hs Hnow.
  unfold is_valid. rewrite Tg, Te, Hs. simpl.
  destruct (Z.leb_spec s now); [lia | reflexivity].
Qed.

Lemma is_valid_before_start_ignores_end_witness :
  is_valid utc {| token := JString "t"; generation_time := JInt 1700000000;
                  expires_at := JString "never" |} 0
  = Ok false
  /\ end_ utc {| token := JString "t"; generation_time := JInt 1700000000;
                 expires_at := JString "never" |}
     = Raise (Exception "Error converting `expires_at` to datetime.").
Proof.
  split; [|reflexivity].
  apply (is_valid_before_start_ignores_end utc _ 0 (1700000000 * 1000000));
    try reflexivity.
Defined.

(** X6. A token for which [validity] returns is one [is_valid] never raises
    on: at every time [is_valid] returns whether the time lies in the window
    [validity] reports.  The converse fails: [validity] also wants a
    non-empty [token], which [is_valid] does not look at. *)
Theorem validity_implies_is_valid_total :
  (forall lt tk r,
      validity lt tk = Ok r ->
      forall now,
        is_valid lt tk now = Ok ((valid_from r <=? now) && (now <=? valid_to r)))
  /\ (forall lt tk,
         py_truthy (token tk) = false ->
         validity lt tk
         = Raise (Exception "Cannot check validity; missing one of `token`, `generation_time`, `expires_at`.")).
Proof.
  split.
  - intros lt tk r H now. unfold validity in H. unfold is_valid.
    destruct (py_truthy (token tk)); [|discriminate].
    destruct (py_truthy (generation_time tk)); [|discriminate].
    destruct (py_truthy (expires_at tk)); [|discriminate].
    simpl in *.
    apply rbind_Ok in H as (s & Hs & H).
    apply rbind_Ok in H as (e & He & H).
    injection H as <-. simpl. rewrite Hs, He. simpl.
    destruct (s <=? now); reflexivity.
  - intros lt tk Ht. unfold validity. now rewrite Ht.
Qed.

Lemma validity_implies_is_valid_total_witness :
  is_valid utc year_token (1731536000 * 1000000 + 1) = Ok false
  /\ validity utc {| token := JString ""; generation_time := JInt 1;
                     expires_at := JInt 2 |}
     = Raise (Exception "Cannot check validity; missing one of `token`, `generation_time`, `expires_at`.").
Proof.
  destruct validity_implies_is_valid_total as [Htotal Hmissing].
  split.
  - apply (Htotal utc year_token
             {| valid_from := 1700000000 * 1000000;
                valid_to := 1731536000 * 1000000;
                valid_days := 365 |}).
    vm_compute. reflexivity.
  - apply Hmissing. reflexivity.
Defined.

(** X7. For a token with all three fields present whose timestamps convert
    to integers [g] and [e], in a zone that stands [off_g] seconds from UTC
    around [g] and [off_e] seconds around [e], [validity] returns the local
    readings of the two and the whole days between the readings, rounded
    down.  Nothing requires the window to be non-empty: the day count is
    negative exactly when the reading of [e] precedes that of [g].  It is
    [(e - g) / 86400] when the two offsets are the same, and may be a day
    less when the clocks are set back in between. *)
Theorem validity_reports_window_and_days :
  forall lt off_g off_e tk g e,
    py_truthy (token tk) = true ->
    py_truthy (generation_time tk) = true ->
    py_truthy (expires_at tk) = true ->
    py_int (generation_time tk) = Ok g ->
    py_int (expires_at tk) = Ok e ->
    at_offset lt off_g g ->
    at_offset lt off_e e ->
    validity lt tk
    = Ok {| valid_from := (g + off_g) * 1000000;
            valid_to := (e + off_e) * 1000000;
            valid_days := (e + off_e - (g + off_g)) / 86400 |}
    /\ ((e + off_e - (g + off_g)) / 86400 < 0 <-> e + off_e < g + off_g)
    /\ (off_g = off_e -> (e + off_e - (g + off_g)) / 86400 = (e - g) / 86400).
Proof.
  intros lt off_g off_e tk g e Tt Tg Te Hg He Rg Re.
  unfold validity. rewrite Tt, Tg, Te. simpl.
  rewrite (start_at_offset _ _ _ _ Hg Rg), (end_at_offset _ _ _ _ He Re). simpl.
  split; [|split].
  - f_equal. f_equal. unfold microseconds_per_day.
    replace ((e + off_e) * 1000000 - (g + off_g) * 1000000)
      with ((e + off_e - (g + off_g)) * 1000000) by lia.
    apply Z.div_mul_cancel_r; lia.
  - split; intros H.
    + destruct (Z.lt_ge_cases (e + off_e) (g + off_g)) as [|Hge]; [assumption|].
      assert (0 <= (e + off_e - (g + off_g)) / 86400) by (apply Z.div_pos; lia).
      lia.
    + apply Z.div_lt_upper_bound; lia.
  - intros <-. f_equal. lia.
Qed.

Lemma validity_reports_window_and_days_witness :
  validity eastern winter_token
  = Ok {| valid_from := 1689985600 * 1000000; valid_to := 1705534000 * 1000000;
          valid_days := 179 |}
  /\ (1705552000 - 1690000000) / 86400 = 180.
Proof.
  assert (Hg : at_offset eastern (-14400) 1690000000) by offset_facts.
  assert (He : at_offset eastern (-18000) 1705552000) by offset_facts.
  split; [|reflexivity].
  exact (proj1 (validity_reports_window_and_days eastern (-14400) (-18000)
                  winter_token 1690000000 1705552000
                  eq_refl eq_refl eq_refl eq_refl eq_refl Hg He)).
Defined.

(** ** Building the dataclasses from decoded JSON *)

Lemma kwargs_error fields d e : kwargs fields d = Raise e -> e = TypeError.
Proof.
  unfold kwargs. destruct d; try (now intros [= <-]).
  destruct (_ && _); [discriminate | now intros [= <-]].
Qed.

Lemma EnphaseToken_of_error d e : EnphaseToken_of d = Raise e -> e = TypeError.
Proof.
  unfold EnphaseToken_of.
  destruct (kwargs _ d) eqn:Hk; simpl; [discriminate|].
  intros [= <-]. now apply kwargs_error in Hk.
Qed.

Lemma EnphaseConfig_of_error d e : EnphaseConfig_of d = Raise e -> e = TypeError.
Proof.
  unfold EnphaseConfig_of.
  destruct (kwargs _ d) eqn:Hk; simpl; [discriminate|].
  intros [= <-]. now apply kwargs_error in Hk.
Qed.

(** ** Renewing the token *)

Ltac step :=
  cbn -[is_valid EnphaseConfig_of EnphaseToken_of requests_in].

Lemma requests_in_le_1 t r : (requests_in (t ++ [EvRequest r]) <= requests_in t + 2)%nat.
Proof. rewrite requests_in_request. lia. Qed.

Lemma requests_in_2 t r1 r2 :
  requests_in ((t ++ [EvRequest r1]) ++ [EvRequest r2]) = (requests_in t + 2)%nat.
Proof. rewrite !requests_in_request. lia. Qed.

(** X9. [get_new_token] replaces the token only when it returns, and then
    with the token it returns; when it raises, the object holds the token it
    had.  Either way it sends at most two requests and leaves the
    configuration, the gateway session, the certificate flag and the file
    alone. *)
Theorem get_new_token_sets_token_only_on_return :
  forall m,
    let m' := snd (get_new_token m) in
    match fst (get_new_token m) with
    | Ok tk => _token (self m') = Some tk
    | Raise _ => _token (self m') = _token (self m)
    end
    /\ _config (self m') = _config (self m)
    /\ _envoy_session (self m') = _envoy_session (self m)
    /\ envoy_ssl_verify (self m') = envoy_ssl_verify (self m)
    /\ config_file m' = config_file m
    /\ (requests_in (trace m') <= requests_in (trace m) + 2)%nat.
Proof.
  intros m.
  unfold get_new_token, set_token, send, new_session,
    bind, lift, ret, raise, get_self, set_self.
  destruct (_config (self m)) as [c|] eqn:Hc; step;
    [|repeat split; auto; lia].
  destruct (negb (py_truthy (username c)) && negb (py_truthy (password c))
            && negb (py_truthy (serial c))); step;
    [repeat split; auto; lia|].
  destruct (network m _ _) as [|st1 body1]; step;
    [repeat split; auto using requests_in_le_1|].
  destruct (network m _ _) as [|st2 body2]; step;
    [repeat split; auto; rewrite requests_in_2; lia|].
  destruct (json_loads body2) as [d|e]; step;
    [|repeat split; auto; rewrite requests_in_2; lia].
  destruct (EnphaseToken_of d) as [tk|e]; step;
    repeat split; auto; rewrite requests_in_2; lia.
Qed.

(** X10. [get_new_token] refuses to log in only when username, password and
    serial number are all empty, and then nothing happens at all; with any
    one of them present, the others empty or not, the login request goes
    out, carrying the username and the password as they are. *)
Theorem get_new_token_refuses_only_all_empty :
  forall m c,
    _config (self m) = Some c ->
    (py_truthy (username c) = false ->
     py_truthy (password c) = false ->
     py_truthy (serial c) = false ->
     get_new_token m
     = (Raise (Exception "Username, password and envoy serial number are required."), m))
    /\ (py_truthy (username c) || py_truthy (password c) || py_truthy (serial c)
        = true ->
        exists rest,
          trace (snd (get_new_token m))
          = trace m
            ++ EvRequest {| req_session := sessions m; req_verb := POST;
                            req_url := login_url;
                            req_data := Some (username c, password c);
                            req_bearer := None; req_verify := true |} :: rest).
Proof.
  intros m c Hc.
  unfold get_new_token, set_token, send, new_session,
    bind, lift, ret, raise, get_self, set_self.
  rewrite Hc. split.
  - intros -> -> ->. reflexivity.
  - intros Hany.
    replace (negb (py_truthy (username c)) && negb (py_truthy (password c))
             && negb (py_truthy (serial c))) with false
      by (destruct (py_truthy (username c)), (py_truthy (password c)),
            (py_truthy (serial c)); simpl in *; congruence).
    step.
    destruct (network m _ _) as [|st1 body1]; step; [now exists []|].
    destruct (network m _ _) as [|st2 body2]; step;
      [rewrite <- app_assoc; simpl; eauto|].
    destruct (json_loads body2) as [d|e]; step;
      [|rewrite <- app_assoc; simpl; eauto].
    destruct (EnphaseToken_of d) as [tk|e]; step;
      rewrite <- app_assoc; simpl; eauto.
Qed.

Lemma get_new_token_refuses_only_all_empty_witness :
  exists rest,
    trace (snd (get_new_token
                  (with_self {| envoy_ssl_verify := true;
                                _config := Some {| username := JString "";
                                                   password := JString "";
                                                   serial := JString "1";
                                                   envoy := JNull;
                                                   site_id := JNull |};
                                _token := None; _envoy_session := None |}
                     expired_machine)))
    = [] ++ EvRequest {| req_session := 0; req_verb := POST;
                         req_url := login_url;
                         req_data := Some (JString "", JString "");
                         req_bearer := None; req_verify := true |} :: rest.
Proof.
  apply (proj2 (get_new_token_refuses_only_all_empty
                  (with_self {| envoy_ssl_verify := true;
                                _config := Some {| username := JString "";
                                                   password := JString "";
                                                   serial := JString "1";
                                                   envoy := JNull;
                                                   site_id := JNull |};
                                _token := None; _envoy_session := None |}
                     expired_machine)
                  _ eq_refl)).
  reflexivity.
Defined.

(** ** The file: failures of [save] and [load] *)

(** X11. [save] opens the file for writing before it looks at the object:
    called on an object without a configuration or without a token it
    raises [AttributeError] and leaves the file empty, the previous content
    gone, so that a later [load] fails with [JSONDecodeError]. *)
Theorem save_without_token_empties_file :
  forall m,
    _config (self m) = None \/ _token (self m) = None ->
    let m' := snd (save m) in
    fst (save m) = Raise AttributeError
    /\ config_file m' = Some (not_json "")
    /\ self m' = self m
    /\ fst (load m') = Raise JSONDecodeError.
Proof.
  intros m H.
  unfold save, load, write_config_file, read_config_file,
    bind, lift, ret, raise, get_self. step.
  destruct (_config (self m)) as [c|], (_token (self m)) as [tk|];
    step; auto; destruct H; discriminate.
Qed.

Lemma save_without_token_empties_file_witness :
  let m := with_self (blank false) expired_machine in
  config_file m = Some (saved_text home_config old_token)
  /\ fst (save m) = Raise AttributeError
  /\ config_file (snd (save m)) = Some (not_json "")
  /\ self (snd (save m)) = self m
  /\ fst (load (snd (save m))) = Raise JSONDecodeError.
Proof.
  split; [reflexivity|].
  apply (save_without_token_empties_file (with_self (blank false) expired_machine)).
  left. reflexivity.
Defined.

(** X12. When [load] returns, the object and the file agree: the object has
    a configuration and a token, and decoding the file as it now is gives
    that configuration and that token, whether the token was kept or
    renewed. *)
Theorem load_leaves_object_and_file_agreeing :
  forall m,
    fst (load m) = Ok tt ->
    exists c tk,
      _config (self (snd (load m))) = Some c
      /\ _token (self (snd (load m))) = Some tk
      /\ stored_config (snd (load m)) = Ok c
      /\ stored_token (snd (load m)) = Ok tk.
Proof.
  intros m.
  unfold stored_config, stored_token, load, token_is_valid, set_config, set_token,
    read_config_file, get_new_token, save, write_config_file, send, new_session,
    bind, lift, ret, raise, get_self, set_self, datetime_now.
  destruct (config_file m) as [t|] eqn:Hf; [|discriminate].
  destruct (json_loads t) as [d|e] eqn:Hd; [|discriminate].
  destruct d as [|b|n|f|s|items|kvs]; try discriminate. step.
  destruct (dict_get kvs "config") as [|b|n|f|s|items|ckvs] eqn:Hdc;
    step; try discriminate.
  destruct (EnphaseConfig_of (JObject ckvs)) as [c|e] eqn:Hc; step; [|discriminate].
  destruct (EnphaseToken_of (dict_get kvs "token")) as [tk|e] eqn:Ht;
    step; [|discriminate].
  destruct (is_valid (localtime m) tk (clock m)) as [[|]|e]; step; [| |discriminate].
  - intros _. exists c, tk. rewrite Hf, Hd. step. rewrite Hdc, Hc, Ht. auto.
  - destruct (negb (py_truthy (username c)) && negb (py_truthy (password c))
              && negb (py_truthy (serial c))); step; [discriminate|].
    destruct (network m _ _) as [|st1 body1]; step; [discriminate|].
    destruct (network m _ _) as [|st2 body2]; step; [discriminate|].
    destruct (json_loads body2) as [d2|e]; step; [|discriminate].
    destruct (EnphaseToken_of d2) as [tk2|e]; step; [|discriminate].
    intros _. exists c, tk2.
    change (EnphaseConfig_of _) with (EnphaseConfig_of (config_dict c)).
    change (EnphaseToken_of _) with (EnphaseToken_of (token_dict tk2)).
    rewrite EnphaseConfig_of_dict, EnphaseToken_of_dict. auto.
Qed.

Lemma load_leaves_object_and_file_agreeing_witness :
  exists c tk,
    _config (self (snd (load expired_machine))) = Some c
    /\ _token (self (snd (load expired_machine))) = Some tk
    /\ stored_config (snd (load expired_machine)) = Ok c
    /\ stored_token (snd (load expired_machine)) = Ok tk.
Proof.
  apply (load_leaves_object_and_file_agreeing expired_machine).
  vm_compute. reflexivity.
Defined.

(** X13. [load] is not all-or-nothing on the object: when the file holds a
    good configuration and a token part that cannot be built (a key missing
    or unknown, or no dict), [load] raises [TypeError] with the new
    configuration already in place and the old token still there; the file
    is untouched and no request is sent. *)
Theorem load_keeps_config_when_token_fails :
  forall m kvs c e,
    config_file m = Some (json_dumps (JObject kvs)) ->
    EnphaseConfig_of (dict_get kvs "config") = Ok c ->
    EnphaseToken_of (dict_get kvs "token") = Raise e ->
    let m' := snd (load m) in
    fst (load m) = Raise TypeError
    /\ _config (self m') = Some c
    /\ _token (self m') = _token (self m)
    /\ config_file m' = config_file m
    /\ requests_in (trace m') = requests_in (trace m).
Proof.
  intros m kvs c e Hf Hc Ht.
  assert (He : e = TypeError) by exact (EnphaseToken_of_error _ _ Ht).
  subst e.
  unfold load, token_is_valid, set_config, set_token, read_config_file,
    bind, lift, ret, raise, get_self, set_self, datetime_now.
  rewrite Hf. step.
  destruct (dict_get kvs "config") as [|b|n|f|s|items|ckvs];
    try discriminate Hc.
  rewrite Hc. step. rewrite Ht. step.
  repeat split; auto.
  rewrite requests_in_app. unfold requests_in at 2. simpl. lia.
Qed.

Lemma load_keeps_config_when_token_fails_witness :
  let m := with_config_file
             (Some (json_dumps (JObject [("config", config_dict home_config)])))
             (with_self (blank false) expired_machine) in
  fst (load m) = Raise TypeError
  /\ _config (self (snd (load m))) = Some home_config
  /\ _token (self (snd (load m))) = None
  /\ config_file (snd (load m)) = config_file m
  /\ requests_in (trace (snd (load m))) = requests_in (trace m).
Proof.
  apply (load_keeps_config_when_token_fails
           (with_config_file
              (Some (json_dumps (JObject [("config", config_dict home_config)])))
              (with_self (blank false) expired_machine))
           [("config", config_dict home_config)] home_config TypeError);
    reflexivity.
Defined.

(** ** What every operation leaves alone *)

Lemma adds_only_refl P m : adds_only P m m.
Proof. exists []. now rewrite app_nil_r. Qed.

Lemma adds_only_trans P m1 m2 m3 :
  adds_only P m1 m2 -> adds_only P m2 m3 -> adds_only P m1 m3.
Proof.
  intros (e1 & H1 & P1) (e2 & H2 & P2). exists (e1 ++ e2).
  rewrite H2, H1, app_assoc, forallb_app, P1, P2. auto.
Qed.

Lemma adds_only_one P m m' e :
  trace m' = trace m ++ [e] -> P e = true -> adds_only P m m'.
Proof. intros Ht He. exists [e]. simpl. now rewrite He. Qed.

(** What one endpoint call does around its result: at most two requests, to
    the gateway only, discreet and verified as the flag says; with a session
    cached, one request on that session and without the token; the object
    changed at most by the session it gains.  A call that returns has sent
    all its requests and leaves a session cached. *)
Lemma envoy_get_json_summary path m :
  let m' := snd (envoy_get_json path m) in
  same_surroundings m m'
  /\ _config (self m') = _config (self m)
  /\ _token (self m') = _token (self m)
  /\ envoy_ssl_verify (self m') = envoy_ssl_verify (self m)
  /\ keeps_session m m'
  /\ exists evs,
       trace m' = trace m ++ evs
       /\ forallb (proper (envoy_ssl_verify (self m))) evs = true
       /\ forallb is_request evs = true
       /\ existsb is_login evs = false
       /\ match _envoy_session (self m) with
          | Some session =>
              (List.length evs <= 1)%nat /\ forallb (on_session session) evs = true
          | None => (List.length evs <= 2)%nat
          end
       /\ match fst (envoy_get_json path m) with
          | Ok _ =>
              _envoy_session (self m') <> None
              /\ List.length evs
                 = match _envoy_session (self m) with
                   | Some _ => 1%nat
                   | None => 2%nat
                   end
          | Raise _ => True
          end.
Proof.
  unfold envoy_get_json, create_envoy_session, set_envoy_session, send,
    new_session, bind, lift, ret, raise, get_self, set_self,
    same_surroundings, keeps_session.
  assert (Hflag : forall b : bool, Bool.eqb b b = true) by (now intros []).
  assert (Hnil : forall t : list event, t = t ++ []) by (intros; now rewrite app_nil_r).
  destruct (_envoy_session (self m)) as [session|] eqn:Hs; step;
    (destruct (_config (self m)) as [c|] eqn:Hc; step;
     [|repeat split; auto; try congruence;
       exists []; repeat split; auto]).
  - destruct (network m _ _) as [|st body]; step;
      [|destruct (json_loads body)];
      (repeat split; auto; try congruence;
       eexists; split; [reflexivity|]; unfold proper; simpl;
       rewrite Hflag, ?Nat.eqb_refl; repeat split; auto; congruence).
  - destruct (_token (self m)) as [tk|] eqn:Ht; step;
      [|repeat split; auto; try congruence; exists []; repeat split; auto].
    destruct (network m _ _) as [|st1 body1]; step.
    + repeat split; auto; try congruence.
      eexists; split; [reflexivity|]; unfold proper; simpl;
        rewrite Hflag; repeat split; auto.
    + rewrite Hc. step.
      destruct (network m _ _) as [|st2 body2]; step;
        [|destruct (json_loads body2)];
        (repeat split; auto; try congruence;
         rewrite <- app_assoc; eexists; split; [reflexivity|];
         unfold proper; simpl; rewrite Hflag; repeat split; auto; congruence).
Qed.

Lemma ivp_ensemble_inventory_is_endpoint :
  ivp_ensemble_inventory = envoy_get_json "/ivp/ensemble/inventory".
Proof. reflexivity. Qed.

(** What [load] does around its result: the clock, the job, the certificate
    flag and the gateway session stay; whatever it sends goes to the cloud,
    discreetly and verified. *)
Lemma load_summary m :
  let m' := snd (load m) in
  clock m' = clock m
  /\ job m' = job m
  /\ envoy_ssl_verify (self m') = envoy_ssl_verify (self m)
  /\ _envoy_session (self m') = _envoy_session (self m)
  /\ exists evs,
       trace m' = trace m ++ evs
       /\ (forall flag, forallb (proper flag) evs = true)
       /\ existsb is_gateway evs = false.
Proof.
  unfold load, token_is_valid, set_config, set_token,
    read_config_file, get_new_token, save, write_config_file, send, new_session,
    bind, lift, ret, raise, get_self, set_self, datetime_now.
  assert (Hnil : exists evs : list event,
             trace m = trace m ++ evs
             /\ (forall flag, forallb (proper flag) evs = true)
             /\ existsb is_gateway evs = false)
    by (exists []; rewrite app_nil_r; auto).
  assert (Hread : exists evs : list event,
             trace m ++ [EvRead] = trace m ++ evs
             /\ (forall flag, forallb (proper flag) evs = true)
             /\ existsb is_gateway evs = false)
    by (eexists; split; [reflexivity|]; auto).
  destruct (config_file m) as [t|]; step; [|auto 10].
  destruct (json_loads t) as [d|e]; step; [|auto 10].
  destruct d as [|b|n|f|s|items|kvs]; step; auto 10.
  destruct (dict_get kvs "config") as [|b|n|f|s|items|ckvs]; step; auto 10.
  destruct (EnphaseConfig_of (JObject ckvs)) as [c|e]; step; [|auto 10].
  destruct (EnphaseToken_of (dict_get kvs "token")) as [tk|e]; step; [|auto 10].
  destruct (is_valid (localtime m) tk (clock m)) as [[|]|e]; step; auto 10.
  destruct (negb (py_truthy (username c)) && negb (py_truthy (password c))
            && negb (py_truthy (serial c))); step; [auto 10|].
  destruct (network m _ _) as [|st1 body1]; step.
  { repeat split; auto. rewrite <- ?app_assoc. eexists. split; [reflexivity|].
    split; [intros []; reflexivity | reflexivity]. }
  destruct (network m _ _) as [|st2 body2]; step.
  { repeat split; auto. rewrite <- ?app_assoc. eexists. split; [reflexivity|].
    split; [intros []; reflexivity | reflexivity]. }
  destruct (json_loads body2) as [d2|e]; step.
  2:{ repeat split; auto. rewrite <- ?app_assoc. eexists. split; [reflexivity|].
      split; [intros []; reflexivity | reflexivity]. }
  destruct (EnphaseToken_of d2) as [tk2|e]; step.
  2:{ repeat split; auto. rewrite <- ?app_assoc. eexists. split; [reflexivity|].
      split; [intros []; reflexivity | reflexivity]. }
  repeat split; auto. rewrite <- ?app_assoc. eexists. split; [reflexivity|].
  split; [intros []; reflexivity | reflexivity].
Qed.

Lemma orderly_refl m : orderly m m.
Proof.
  unfold orderly, keeps_session. repeat split; auto using adds_only_refl.
Qed.

Lemma orderly_trans m1 m2 m3 : orderly m1 m2 -> orderly m2 m3 -> orderly m1 m3.
Proof.
  intros (C1 & T1 & V1 & F1 & K1 & A1 & S1) (C2 & T2 & V2 & F2 & K2 & A2 & S2).
  unfold orderly, keeps_session in *. repeat split; try congruence.
  - auto.
  - rewrite V1 in A2. eapply adds_only_trans; eassumption.
  - intros session Hs. eapply adds_only_trans; [apply S1 | apply S2]; auto.
Qed.

(** A printed message or a sleep, added to the trace and nothing else. *)
Lemma orderly_note m e :
  is_request e = false -> polling_event true e = true ->
  orderly m (with_trace (trace m ++ [e]) m).
Proof.
  intros He Hp. unfold orderly, keeps_session. repeat split; auto.
  - apply (adds_only_one _ _ _ e); [reflexivity|].
    destruct e; try discriminate; reflexivity.
  - intros session _. apply (adds_only_one _ _ _ e); [reflexivity|].
    now destruct e.
Qed.

Lemma polling_event_of_proper flag e :
  proper flag e = true -> is_request e = true -> is_login e = false ->
  polling_event flag e = true.
Proof.
  destruct e as [r| | | | |]; try discriminate.
  unfold proper, discreet_event, verifies_as, is_login, polling_event.
  destruct (req_url r); try discriminate. auto.
Qed.

Lemma proper_of_polling_event flag e :
  polling_event flag e = true -> proper flag e = true.
Proof.
  destruct e as [r| | | | |]; try discriminate; try reflexivity.
  unfold proper, discreet_event, verifies_as, polling_event.
  destruct (req_url r); try discriminate. auto.
Qed.

Lemma forallb_polling_events flag evs :
  forallb (proper flag) evs = true ->
  forallb is_request evs = true ->
  existsb is_login evs = false ->
  forallb (polling_event flag) evs = true.
Proof.
  induction evs as [|e evs IH]; simpl; [reflexivity|].
  intros Hp Hr Hl.
  apply andb_true_iff in Hp as [Hp1 Hp2].
  apply andb_true_iff in Hr as [Hr1 Hr2].
  apply orb_false_iff in Hl as [Hl1 Hl2].
  rewrite (polling_event_of_proper _ _ Hp1 Hr1 Hl1). simpl. auto.
Qed.

Lemma orderly_envoy_get_json path m : orderly m (snd (envoy_get_json path m)).
Proof.
  destruct (envoy_get_json_summary path m)
    as ((_ & _ & Hf) & Hc & Ht & Hv & Hk & evs & Htr & Hp & Hr & Hl & Hs & _).
  unfold orderly. repeat split; auto.
  - exists evs. split; [assumption|]. now apply forallb_polling_events.
  - intros session Hsess. rewrite Hsess in Hs. exists evs. tauto.
Qed.

Lemma orderly_poll_enphase m : orderly m (snd (poll_enphase m)).
Proof.
  pose proof (orderly_envoy_get_json "/ivp/ensemble/inventory" m) as Hivp.
  unfold poll_enphase, bind, lift, log.
  rewrite ivp_ensemble_inventory_is_endpoint.
  destruct (envoy_get_json _ m) as [[raw_data|e] m1]; simpl in *; [|assumption].
  destruct (process_ensemble_inventory raw_data) as [s|e]; simpl; [|assumption].
  eapply orderly_trans; [exact Hivp|].
  eapply orderly_trans; [apply (orderly_note m1 (EvPrintSummary s)); reflexivity|].
  destruct (grid_status s); simpl.
  - apply orderly_refl.
  - exact (orderly_note (with_trace (trace m1 ++ [EvPrintSummary s]) m1)
             EvPrintBreakers eq_refl eq_refl).
Qed.

Lemma orderly_with_job j m : orderly m (with_job j m).
Proof.
  unfold orderly, keeps_session. repeat split; auto;
    try intros session _; exists []; simpl; now rewrite app_nil_r.
Qed.

Lemma orderly_sleep n m : orderly m (snd (sleep n m)).
Proof.
  unfold orderly, keeps_session. simpl. repeat split; auto.
  - apply (adds_only_one _ _ _ (EvSleep n)); reflexivity.
  - intros session _. apply (adds_only_one _ _ _ (EvSleep n)); reflexivity.
Qed.

Lemma orderly_run_pending m : orderly m (snd (schedule.run_pending poll_enphase m)).
Proof.
  pose proof (orderly_poll_enphase m) as Hp.
  unfold schedule.run_pending, schedule.set_job, bind, datetime_now.
  destruct (job m) as [j|]; [|apply orderly_refl].
  destruct (next_run j <=? clock m); [|apply orderly_refl].
  destruct (poll_enphase m) as [[[]|e] m1]; simpl in *; [|assumption].
  eapply orderly_trans; [exact Hp | apply orderly_with_job].
Qed.

Lemma orderly_main_loop fuel : forall m, orderly m (snd (main_loop fuel m)).
Proof.
  induction fuel as [|fuel IH]; intros m; [apply orderly_refl|].
  pose proof (orderly_run_pending m) as Hr.
  simpl. unfold bind at 1.
  destruct (schedule.run_pending poll_enphase m) as [[[]|e] m1]; simpl in *;
    [|assumption].
  unfold bind. simpl.
  eapply orderly_trans; [exact Hr|].
  eapply orderly_trans; [apply (orderly_sleep 1 m1) | apply IH].
Qed.

Lemma adds_only_weaken (P Q : event -> bool) m m' :
  (forall e, P e = true -> Q e = true) -> adds_only P m m' -> adds_only Q m m'.
Proof.
  intros HPQ (evs & Ht & Hp). exists evs. split; [assumption|].
  rewrite forallb_forall in *. auto.
Qed.

(** ** The polling loop and the program as a whole *)

(** X14. However many rounds the main loop runs and whatever the gateway
    answers, polling leaves the configuration, the token, the certificate
    flag and the file as they are, and adds nothing to the trace but
    discreet requests to the gateway, verified as the flag says, printed
    messages and sleeps: it never logs in, never asks for a token and never
    reads or writes the file. *)
Theorem polling_loop_is_confined :
  forall fuel m,
    let m' := snd (main_loop fuel m) in
    _config (self m') = _config (self m)
    /\ _token (self m') = _token (self m)
    /\ envoy_ssl_verify (self m') = envoy_ssl_verify (self m)
    /\ config_file m' = config_file m
    /\ exists evs,
         trace m' = trace m ++ evs
         /\ forallb (polling_event (envoy_ssl_verify (self m))) evs = true.
Proof.
  intros fuel m.
  destruct (orderly_main_loop fuel m) as (Hc & Ht & Hv & Hf & _ & Ha & _).
  repeat split; assumption.
Qed.

(** X15. A gateway session, once cached, is never dropped or replaced:
    [load] and [get_new_token] keep it even when they renew the token, and
    so does the polling loop, in which every request then goes over that
    session and none carries a bearer token.  A renewed token is therefore
    never presented to the gateway while the object lives. *)
Theorem session_outlives_token :
  forall m session,
    _envoy_session (self m) = Some session ->
    _envoy_session (self (snd (load m))) = Some session
    /\ _envoy_session (self (snd (get_new_token m))) = Some session
    /\ forall fuel,
         _envoy_session (self (snd (main_loop fuel m))) = Some session
         /\ adds_only (on_session session) m (snd (main_loop fuel m)).
Proof.
  intros m session Hs. split; [|split].
  - destruct (load_summary m) as (_ & _ & _ & Hk & _). congruence.
  - unfold get_new_token, set_token, send, new_session,
      bind, lift, ret, raise, get_self, set_self.
    destruct (_config (self m)) as [c|]; step; [|assumption].
    destruct (_ && _); step; [assumption|].
    destruct (network m _ _) as [|st1 body1]; step; [assumption|].
    destruct (network m _ _) as [|st2 body2]; step; [assumption|].
    destruct (json_loads body2) as [d|e]; step; [|assumption].
    destruct (EnphaseToken_of d) as [tk|e]; step; assumption.
  - intros fuel.
    destruct (orderly_main_loop fuel m) as (_ & _ & _ & _ & Hk & _ & Ho).
    split; [apply Hk | apply Ho]; assumption.
Qed.

Lemma session_outlives_token_witness :
  let m := snd (poll_enphase expired_machine) in
  _envoy_session (self (snd (load m))) = Some 0%nat
  /\ _token (self (snd (load m))) = Some new_token
  /\ _envoy_session (self (snd (main_loop 30 (snd (load m))))) = Some 0%nat.
Proof.
  destruct (session_outlives_token (snd (poll_enphase expired_machine)) 0%nat)
    as (Hload & _ & _); [reflexivity|].
  destruct (session_outlives_token
              (snd (load (snd (poll_enphase expired_machine)))) 0%nat)
    as (_ & _ & Hloop); [exact Hload|].
  split; [exact Hload|]. split; [vm_compute; reflexivity|].
  exact (proj1 (Hloop 30%nat)).
Defined.

Lemma main_run fuel m :
  main fuel m
  = match load (with_self (blank false) m) with
    | (Ok _, m1) =>
        main_loop fuel
          (with_job (Some {| interval := 10;
                             next_run := clock m1 + 10 * 1000000 |}) m1)
    | (Raise e, m1) => (Raise e, m1)
    end.
Proof.
  unfold main, bind, set_self, schedule.every_seconds_do, schedule.set_job,
    datetime_now, blank.
  destruct (load _) as [[[]|e] m1]; reflexivity.
Qed.

(** X16. Of everything the program does, from [load] at startup through any
    number of rounds: the password goes to the login URL and nowhere else,
    the bearer token to the gateway's [/auth/check_jwt] and nowhere else,
    every request to the cloud verifies the certificate, and no request to
    the gateway does, since [__main__] switches the flag off. *)
Theorem program_requests_are_proper :
  forall fuel m, adds_only (proper false) m (snd (main fuel m)).
Proof.
  intros fuel m. rewrite main_run.
  set (m0 := with_self (blank false) m).
  assert (H0 : adds_only (proper false) m m0)
    by (exists []; simpl; now rewrite app_nil_r).
  eapply adds_only_trans; [exact H0|]. clear H0.
  destruct (load_summary m0) as (_ & _ & Hv & _ & evs & Ht & Hp & _).
  assert (Hload : adds_only (proper false) m0 (snd (load m0)))
    by (exists evs; auto).
  destruct (load m0) as [[[]|e] m1]; simpl in *; [|assumption].
  eapply adds_only_trans; [exact Hload|].
  set (m2 := with_job _ m1).
  destruct (orderly_main_loop fuel m2) as (_ & _ & _ & _ & _ & Ha & _).
  assert (Hflag : envoy_ssl_verify (self m2) = false) by exact Hv.
  rewrite Hflag in Ha.
  assert (H12 : adds_only (proper false) m1 m2)
    by (exists []; simpl; now rewrite app_nil_r).
  eapply adds_only_trans; [exact H12|].
  eapply adds_only_weaken; [apply proper_of_polling_event | exact Ha].
Qed.

(** X17. When [load] fails at startup, for a missing or undecodable file, a
    malformed document or a failed renewal, the program ends with that
    error before it registers the job: no round runs and nothing was ever
    sent to the gateway. *)
Theorem startup_failure_aborts :
  forall fuel m e,
    fst (load (with_self (blank false) m)) = Raise e ->
    fst (main fuel m) = Raise e
    /\ job (snd (main fuel m)) = job m
    /\ exists evs,
         trace (snd (main fuel m)) = trace m ++ evs
         /\ existsb is_gateway evs = false.
Proof.
  intros fuel m e. rewrite main_run.
  set (m0 := with_self (blank false) m).
  destruct (load_summary m0) as (_ & Hj & _ & _ & evs & Ht & _ & Hg).
  destruct (load m0) as [[[]|e'] m1]; simpl in *; [discriminate|].
  intros [= ->]. repeat split; eauto.
Qed.

Lemma startup_failure_aborts_witness :
  let m := with_config_file None expired_machine in
  fst (main 30 m) = Raise FileNotFoundError
  /\ job (snd (main 30 m)) = job m
  /\ exists evs,
       trace (snd (main 30 m)) = trace m ++ evs
       /\ existsb is_gateway evs = false.
Proof.
  apply (startup_failure_aborts 30 (with_config_file None expired_machine)
           FileNotFoundError).
  reflexivity.
Defined.

(** ** Sessions and endpoint calls *)

(** X18. Whether a gateway session is cached depends on reachability alone:
    any response to the check, whatever its HTTP status, caches the new
    session and returns it; a transport failure raises, caches nothing and
    leaves the object as it was, so that the next call sends the check
    again. *)
Theorem session_cached_on_any_response :
  forall m c tk,
    _config (self m) = Some c ->
    _token (self m) = Some tk ->
    _envoy_session (self m) = None ->
    let m' := snd (create_envoy_session m) in
    (forall status body,
        network m (trace m) (check_request m c tk) = response status body ->
        fst (create_envoy_session m) = Ok (sessions m)
        /\ _envoy_session (self m') = Some (sessions m))
    /\ (network m (trace m) (check_request m c tk) = unreachable ->
        fst (create_envoy_session m) = Raise RequestException
        /\ self m' = self m
        /\ requests_in (trace (snd (create_envoy_session m')))
           = (requests_in (trace m) + 2)%nat).
Proof.
  intros m c tk Hc Ht Hs.
  pose proof (create_envoy_session_fresh m c tk Hc Ht Hs) as [Hreq _].
  split.
  - intros status body Hn. unfold create_envoy_session, check_request in *.
    run. rewrite Hs, Hc, Ht. run. rewrite Hn. simpl. auto.
  - intros Hn.
    assert (Hrun : create_envoy_session m
                   = (Raise RequestException,
                      with_trace (trace m ++ [EvRequest (check_request m c tk)])
                        (with_sessions (S (sessions m)) m))).
    { unfold create_envoy_session, check_request in *.
      run. rewrite Hs, Hc, Ht. run. now rewrite Hn. }
    cbn zeta in *. rewrite Hrun in *. simpl in *.
    split; [reflexivity|]. split; [reflexivity|].
    destruct (create_envoy_session_fresh
                (with_trace (trace m ++ [EvRequest (check_request m c tk)])
                   (with_sessions (S (sessions m)) m)) c tk Hc Ht Hs) as [Hagain _].
    simpl in Hagain. rewrite Hagain, Hreq. lia.
Qed.

Lemma session_cached_on_any_response_witness :
  let m := with_self {| envoy_ssl_verify := false; _config := Some home_config;
                        _token := Some old_token; _envoy_session := None |}
             {| self := blank false; job := None; config_file := None;
                localtime := utc; clock := 0; sessions := 0;
                network := fun _ _ => response 401 (not_json "Unauthorized");
                trace := [] |} in
  fst (create_envoy_session m) = Ok 0%nat
  /\ _envoy_session (self (snd (create_envoy_session m))) = Some 0%nat.
Proof.
  intros m.
  exact (proj1 (session_cached_on_any_response m home_config old_token
                  eq_refl eq_refl eq_refl) 401 (not_json "Unauthorized") eq_refl).
Defined.

Lemma requests_in_all_requests t evs :
  forallb is_request evs = true ->
  requests_in (t ++ evs) = (requests_in t + List.length evs)%nat.
Proof.
  intros H. rewrite requests_in_app. f_equal. unfold requests_in.
  induction evs as [|e evs IH]; simpl in *; [reflexivity|].
  apply andb_true_iff in H as [He Hr]. rewrite He. simpl. now rewrite IH.
Qed.

Lemma fetch_all_cons p paths m :
  fetch_all (p :: paths) m
  = match envoy_get_json p m with
    | (Ok body, m1) =>
        match fetch_all paths m1 with
        | (Ok bodies, m2) => (Ok (body :: bodies), m2)
        | (Raise e, m2) => (Raise e, m2)
        end
    | (Raise e, m1) => (Raise e, m1)
    end.
Proof.
  simpl. unfold bind, ret.
  destruct (envoy_get_json p m) as [[body|e] m1]; [|reflexivity].
  destruct (fetch_all paths m1) as [[bodies|e] m2]; reflexivity.
Qed.

(** Endpoint calls over a cached session: one request each. *)
Lemma fetch_all_cached paths :
  forall m session bodies,
    _envoy_session (self m) = Some session ->
    fst (fetch_all paths m) = Ok bodies ->
    requests_in (trace (snd (fetch_all paths m)))
    = (requests_in (trace m) + List.length paths)%nat
    /\ List.length bodies = List.length paths.
Proof.
  induction paths as [|p paths IH]; intros m session bodies Hs.
  - simpl. intros [= <-]. split; [lia | reflexivity].
  - rewrite fetch_all_cons.
    destruct (envoy_get_json_summary p m)
      as (_ & _ & _ & _ & Hk & evs & Ht & _ & Hr & _ & _ & Hok).
    rewrite Hs in Hok.
    destruct (envoy_get_json p m) as [[body|e] m1]; simpl in *; [|discriminate].
    destruct Hok as [_ Hlen].
    specialize (Hk session Hs).
    destruct (fetch_all paths m1) as [[rest|e] m2] eqn:Hrest; simpl; [|discriminate].
    intros [= <-].
    destruct (IH m1 session rest Hk) as [Hreq Hl]; [now rewrite Hrest|].
    rewrite Hrest in Hreq. simpl in *.
    rewrite Hreq, Ht, (requests_in_all_requests _ _ Hr), Hlen, Hl.
    split; lia.
Qed.

(** X19. A chain of endpoint calls that all return, started without a
    session, costs one request more than it has calls: the check is sent
    once, before the first call, and every later call reuses the session.
    Each call yields one decoded body. *)
Theorem endpoint_chain_checks_once :
  forall p paths m bodies,
    _envoy_session (self m) = None ->
    fst (fetch_all (p :: paths) m) = Ok bodies ->
    requests_in (trace (snd (fetch_all (p :: paths) m)))
    = (requests_in (trace m) + 1 + List.length (p :: paths))%nat
    /\ List.length bodies = List.length (p :: paths).
Proof.
  intros p paths m bodies Hs. rewrite fetch_all_cons.
  destruct (envoy_get_json_summary p m)
    as (_ & _ & _ & _ & _ & evs & Ht & _ & Hr & _ & _ & Hok).
  rewrite Hs in Hok.
  destruct (envoy_get_json p m) as [[body|e] m1]; simpl in *; [|discriminate].
  destruct Hok as [Hsome Hlen].
  destruct (_envoy_session (self m1)) as [session|] eqn:Hs1; [|congruence].
  destruct (fetch_all paths m1) as [[rest|e] m2] eqn:Hrest; simpl; [|discriminate].
  intros [= <-].
  destruct (fetch_all_cached paths m1 session rest Hs1) as [Hreq Hl];
    [now rewrite Hrest|].
  rewrite Hrest in Hreq. simpl in *.
  rewrite Hreq, Ht, (requests_in_all_requests _ _ Hr), Hlen, Hl.
  split; lia.
Qed.

Lemma endpoint_chain_checks_once_witness :
  let m := loaded old_token new_token 1500
             (JObject [("production", JArray [])]) in
  requests_in (trace (snd (fetch_all ["/ivp/ensemble/inventory";
                                      "/ivp/ensemble/inventory"] m)))
  = (requests_in (trace m) + 1 + 2)%nat
  /\ List.length [JObject [("production", JArray [])];
                  JObject [("production", JArray [])]] = 2%nat.
Proof.
  apply (endpoint_chain_checks_once "/ivp/ensemble/inventory"
           ["/ivp/ensemble/inventory"]
           (loaded old_token new_token 1500 (JObject [("production", JArray [])]))
           [JObject [("production", JArray [])];
            JObject [("production", JArray [])]]).
  - reflexivity.
  - vm_compute. reflexivity.
Defined.

(** ** A cycle that returns, and the rhythm of the loop *)

(** X20. A poll cycle that returns has fetched an inventory and reduced it
    to a summary; it then prints that summary once, and after it the
    breaker message, once, exactly when the grid status is [DOWN]. *)
Theorem returning_cycle_prints_then_warns :
  forall m m',
    poll_enphase m = (Ok tt, m') ->
    exists m1 raw_data s,
      ivp_ensemble_inventory m = (Ok raw_data, m1)
      /\ process_ensemble_inventory raw_data = Ok s
      /\ self m' = self m1
      /\ trace m'
         = trace m1 ++ EvPrintSummary s
                       :: match grid_status s with
                          | UP => []
                          | DOWN => [EvPrintBreakers]
                          end
      /\ List.length (breakers_in (trace m'))
         = (List.length (breakers_in (trace m))
            + match grid_status s with UP => 0 | DOWN => 1 end)%nat.
Proof.
  intros m m'.
  pose proof (no_breakers_ivp_ensemble_inventory m) as Hivp.
  unfold no_breakers in Hivp.
  unfold poll_enphase, bind, lift, log.
  destruct (ivp_ensemble_inventory m) as [[raw_data|e] m1]; simpl in Hivp;
    [|discriminate].
  destruct (process_ensemble_inventory raw_data) as [s|e] eqn:Hs; [|discriminate].
  destruct (grid_status s) eqn:Hg; simpl; intros [= <-];
    exists m1, raw_data, s; rewrite Hg;
    (split; [reflexivity|]; split; [assumption|]; split; [reflexivity|]; split);
    simpl; rewrite <- ?app_assoc; try reflexivity;
    unfold breakers_in in *; rewrite !filter_app, !length_app, Hivp; simpl; lia.
Qed.

Lemma returning_cycle_prints_then_warns_witness :
  exists m1 raw_data s,
    ivp_ensemble_inventory expired_machine = (Ok raw_data, m1)
    /\ process_ensemble_inventory raw_data = Ok s
    /\ self (snd (poll_enphase expired_machine)) = self m1
    /\ trace (snd (poll_enphase expired_machine))
       = trace m1 ++ EvPrintSummary s
                     :: match grid_status s with
                        | UP => []
                        | DOWN => [EvPrintBreakers]
                        end
    /\ List.length (breakers_in (trace (snd (poll_enphase expired_machine))))
       = (List.length (breakers_in (trace expired_machine))
          + match grid_status s with UP => 0 | DOWN => 1 end)%nat.
Proof.
  apply (returning_cycle_prints_then_warns expired_machine).
  vm_compute. reflexivity.
Defined.









(** ** [load] on a file it cannot use *)

Lemma dict_get_absent kvs k : dict_has kvs k = false -> dict_get kvs k = JNull.
Proof.
  unfold dict_has. induction kvs as [|[k' v] kvs IH]; simpl; [reflexivity|].
  destruct (String.eqb k' k); simpl; [discriminate | exact IH].
Qed.

(** X23. The failures of [load] that come before it touches the object: no
    file raises [FileNotFoundError], a file that is not JSON raises
    [JSONDecodeError], a document that is not a dict raises
    [AttributeError], and a dict without a [config] key raises the
    exception of the [config] setter for a value of unknown type.  In each
    case the object is what it was, the file is untouched and nothing is
    sent. *)
Theorem load_fails_before_touching_object :
  forall m,
    let m' := snd (load m) in
    let untouched :=
      self m' = self m /\ config_file m' = config_file m
      /\ requests_in (trace m') = requests_in (trace m) in
    (config_file m = None ->
     fst (load m) = Raise FileNotFoundError /\ untouched)
    /\ (forall s, config_file m = Some (not_json s) ->
                  fst (load m) = Raise JSONDecodeError /\ untouched)
    /\ (forall d, config_file m = Some (json_dumps d) -> is_object d = false ->
                  fst (load m) = Raise AttributeError /\ untouched)
    /\ (forall kvs, config_file m = Some (json_dumps (JObject kvs)) ->
                    dict_has kvs "config" = false ->
                    fst (load m)
                    = Raise (Exception "Enphase config provided is of unknown type.")
                    /\ untouched).
Proof.
  intros m.
  assert (Hread : requests_in (trace m ++ [EvRead]) = requests_in (trace m)).
  { rewrite requests_in_app. unfold requests_in at 2. simpl. lia. }
  unfold load, token_is_valid, set_config, set_token, read_config_file,
    bind, lift, ret, raise, get_self, set_self, datetime_now.
  cbv zeta. split; [|split; [|split]].
  - intros Hf. rewrite Hf. simpl. auto.
  - intros s Hf. rewrite Hf. step. auto.
  - intros d Hf Hd. rewrite Hf. destruct d; try discriminate Hd; step; auto.
  - intros kvs Hf Hk. rewrite Hf. step. rewrite (dict_get_absent _ _ Hk). step.
    auto.
Qed.

Lemma load_fails_before_touching_object_witness :
  let m := with_config_file
             (Some (json_dumps (JObject [("token", token_dict old_token)])))
             expired_machine in
  fst (load m) = Raise (Exception "Enphase config provided is of unknown type.")
  /\ self (snd (load m)) = self m
  /\ config_file (snd (load m)) = config_file m
  /\ requests_in (trace (snd (load m))) = requests_in (trace m).
Proof.
  intros m.
  destruct (load_fails_before_touching_object m) as (_ & _ & _ & Hmissing).
  apply (Hmissing [("token", token_dict old_token)]); reflexivity.
Defined.
